(** * Demo3: token issuance, verification and the admin gate

    A shallow embedding of [app/main.py] (the FastAPI JWT demo) and of the
    seed data of [app/preload_memcache.py].

    Python values are a small inductive type, dictionaries are finite maps
    with string keys, dictionary objects that are passed by reference live
    in a heap, and every handler is a computation in a monad that threads
    the heap and an event log and may raise a Python exception.  The
    primitives the program imports (HMAC signing, the bcrypt context, text
    conversions) are an interface, [Primitives]; the claim validation of
    [jwt.decode] and the key check of the memcached client are modelled as
    far as the handlers can observe them. *)

From Stdlib Require Import ZArith.
From stdpp Require Import base strings gmap list pretty.

Local Open Scope Z_scope.

(** ** Python values *)

(** [PDatetime us] is an aware UTC [datetime], as microseconds since the
    epoch (the resolution of [datetime]). *)
Inductive pyval :=
  | PNone
  | PBool (b : bool)
  | PInt (z : Z)
  | PStr (s : string)
  | PDatetime (us : Z).

#[global] Instance pyval_eq_dec : EqDecision pyval.
Proof. solve_decision. Defined.

(** A [dict] with string keys. *)
Abbreviation pydict := (gmap string pyval).

(** Truth value of an object, as tested by [not x] and [x or y]. *)
Definition truthy (v : pyval) : bool :=
  match v with
  | PNone => false
  | PBool b => b
  | PInt z => negb (z =? 0)
  | PStr s => negb (String.eqb s "")
  | PDatetime _ => true
  end.

(** Truth value of a [dict]: false exactly for the empty one. *)
Definition dict_truthy (d : pydict) : bool := negb (bool_decide (d = ∅)).

(** Truth value of a [dict | None]. *)
Definition opt_truthy (u : option pydict) : bool :=
  match u with
  | None => false
  | Some d => dict_truthy d
  end.

(** [d.get(k)] and [d.get(k, dflt)]. *)
Definition dict_get (d : pydict) (k : string) : pyval := default PNone (d !! k).
Definition dict_get_or (d : pydict) (k : string) (dflt : pyval) : pyval :=
  default dflt (d !! k).

(** [d.update(e)]: the entries of [e] win. *)
Definition dict_update (d e : pydict) : pydict := e ∪ d.

(** ** Imported primitives *)

Class Primitives := {
  (** HS256 tag of a header with the given [alg] and a payload, under a key *)
  hmac_sign : string -> string -> pydict -> string;
  (** [pwd_context.hash] *)
  pwd_hash : string -> string;
  (** [pwd_context.verify]; [None] when the context raises *)
  pwd_verify : string -> pyval -> option bool;
  (** [int(s)] on text; [None] is [ValueError] *)
  int_of_text : string -> option Z;
  (** [str(d)] on a [datetime] *)
  str_of_datetime : Z -> string
}.

(** ** Exceptions, events, the handler monad *)

(** The classes of [jwt.PyJWTError] that [jwt.decode] raises here. *)
Inductive jwt_error :=
  | DecodeError
  | InvalidAlgorithmError
  | InvalidSignatureError
  | ExpiredSignatureError
  | ImmatureSignatureError
  | InvalidIssuedAtError
  | InvalidAudienceError
  | InvalidSubjectError
  | InvalidJTIError.

Inductive exn :=
  | HTTPException (status_code : Z) (detail : string)
  | PyJWTError (cls : jwt_error)
  | KeyError (key : string)
  | TypeError
  | ValueError
  | PasslibError
  | MemcachedKeyError.

#[global] Instance jwt_error_eq_dec : EqDecision jwt_error.
Proof. solve_decision. Defined.
#[global] Instance exn_eq_dec : EqDecision exn.
Proof. solve_decision. Defined.

(** What a handler does to the outside world, in order. *)
Inductive event :=
  | StoreGet (key : string)                       (* mc.get(key) *)
  | Printed (user : option pydict)                (* print(f"{user=}") *)
  | PwdVerify (plain : string) (hashed : pyval).  (* pwd_context.verify *)

(** ** The memcached client

    The client checks a key before it sends it ([check_key]): at most 250
    bytes, and a match of [[\x21-\x7e\x80-\xff]+$], that is a non-empty run
    of bytes that are neither blanks nor control characters, up to the end
    or up to one final newline.  A string here is the UTF-8 text of the
    key. *)
Definition SERVER_MAX_KEY_LENGTH : nat := 250.

Definition key_byte_ok (a : Ascii.ascii) : bool :=
  let n := Ascii.N_of_ascii a in
  ((33 <=? n) && negb (n =? 127))%N.

Fixpoint key_bytes_ok (k : string) : bool :=
  match k with
  | EmptyString => true
  | String a k' => key_byte_ok a && key_bytes_ok k'
  end.

Definition newline : Ascii.ascii := Ascii.ascii_of_nat 10.

(** What [$] leaves out of the match: one newline at the very end. *)
Fixpoint drop_final_newline (k : string) : string :=
  match k with
  | EmptyString => EmptyString
  | String a EmptyString =>
      if Ascii.eqb a newline then EmptyString else String a EmptyString
  | String a k' => String a (drop_final_newline k')
  end.

Definition key_bytes_match (k : string) : bool :=
  let body := drop_final_newline k in
  negb (String.eqb body EmptyString) && key_bytes_ok body.

(** [check_key] lets the key through. *)
Definition key_accepted (k : string) : bool :=
  (String.length k <=? SERVER_MAX_KEY_LENGTH)%nat && key_bytes_match k.

(** A key a server can hold an entry under: accepted, and free of the
    newline that ends a protocol line. *)
Definition key_storable (k : string) : bool :=
  (String.length k <=? SERVER_MAX_KEY_LENGTH)%nat
  && negb (String.eqb k EmptyString) && key_bytes_ok k.

(** The content of the server.  Only an entry under a storable key can be
    there; what [entries] holds under another key is not part of the
    store. *)
Record memcached := Memcached {
  entries : gmap string pydict
}.

#[global] Instance memcached_lookup : Lookup string pydict memcached :=
  fun k m => if key_storable k then entries m !! k else None.

(** The credential store is read-only for the program; the clock is the
    instant of the request, in microseconds since the epoch. *)
Record env := Env {
  store : memcached;
  clock : Z
}.

(** [heap] holds the dictionary objects the program passes by reference;
    a reference is an index into it. *)
Record state := State {
  heap : list pydict;
  log : list event
}.

Inductive outcome (A : Type) :=
  | Returns (a : A)
  | Raises (e : exn).
Arguments Returns {A} a.
Arguments Raises {A} e.

Definition M (A : Type) : Type := env -> state -> outcome A * state.

Definition ret {A} (a : A) : M A := fun _ s => (Returns a, s).

Definition bind {A B} (m : M A) (k : A -> M B) : M B :=
  fun e s =>
    match m e s with
    | (Returns a, s') => k a e s'
    | (Raises x, s') => (Raises x, s')
    end.

Definition raise {A} (x : exn) : M A := fun _ s => (Raises x, s).

(** [try: body / except ...]: [handler] answers [None] for an exception no
    clause matches. *)
Definition try_except {A} (body : M A) (handler : exn -> option (M A)) : M A :=
  fun e s =>
    match body e s with
    | (Returns a, s') => (Returns a, s')
    | (Raises x, s') =>
        match handler x with
        | Some h => h e s'
        | None => (Raises x, s')
        end
    end.

Definition lift {A} (o : outcome A) : M A := fun _ s => (o, s).
Definition ask : M env := fun e s => (Returns e, s).
Definition emit (ev : event) : M unit :=
  fun _ s => (Returns tt, State (heap s) (log s ++ [ev])).

(** A fresh dictionary object. *)
Definition alloc (d : pydict) : M nat :=
  fun _ s => (Returns (length (heap s)), State (heap s ++ [d]) (log s)).

(** The contents of a dictionary object.  A reference the program holds is
    always live; a dangling one has no Python counterpart and is read as
    the empty dictionary. *)
Definition deref (l : nat) : M pydict :=
  fun _ s => (Returns (default ∅ (heap s !! l)), s).

(** In-place change of a dictionary object. *)
Definition mutate (l : nat) (f : pydict -> pydict) : M unit :=
  fun _ s =>
    (Returns tt, State (alter f l (heap s)) (log s)).

Declare Scope monad_scope.
Delimit Scope monad_scope with monad.
Notation "x <- c1 ;; c2" := (bind c1 (fun x => c2))
  (at level 100, c1 at next level, right associativity) : monad_scope.
Notation "c1 ;; c2" := (bind c1 (fun _ => c2))
  (at level 100, right associativity) : monad_scope.
Local Open Scope monad_scope.

(** [d[k]] *)
Definition dict_index (d : pydict) (k : string) : M pyval :=
  match d !! k with
  | Some v => ret v
  | None => raise (KeyError k)
  end.

(** [d.copy()] on a dictionary object. *)
Definition dict_copy (l : nat) : M nat := d <- deref l ;; alloc d.

(** [a or b] on conditions: [b] is evaluated only when [a] is false. *)
Definition or_else (a : bool) (b : M bool) : M bool :=
  if a then ret true else b.

Definition run {A} (m : M A) (st : memcached) (now : Z) (s : state)
  : outcome A * state :=
  m (Env st now) s.

(** The state of a fresh request. *)
Definition idle : state := State [] [].

Section Engine.
Context `{Primitives}.

(** ** Text conversions *)

(** [str(v)], which is what an f-string field [{v}] inserts. *)
Definition py_str (v : pyval) : string :=
  match v with
  | PNone => "None"
  | PBool true => "True"
  | PBool false => "False"
  | PInt z => pretty z
  | PStr s => s
  | PDatetime us => str_of_datetime us
  end.

(** [int(v)] *)
Definition py_int (v : pyval) : outcome Z :=
  match v with
  | PInt z => Returns z
  | PBool b => Returns (Z.b2z b)
  | PStr s =>
      match int_of_text s with
      | Some z => Returns z
      | None => Raises ValueError
      end
  | PNone | PDatetime _ => Raises TypeError
  end.

(** ** The [jwt] module

    A compact token is either text that does not parse into the three
    segments of a JWS with a JSON object for a payload, or a header
    algorithm, a payload and a signature (the serialization itself is not
    modelled).  A payload holds null, booleans, integers and text.  Of the
    registered claims the library validates [iat], [nbf], [exp], [aud],
    [sub] and [jti], in this order ([iss] only against an issuer the caller
    names, and the program names none).  The library compares a time claim,
    in seconds, with the clock as a float of seconds; here both sides are
    exact, in microseconds. *)
Inductive jwt :=
  | Garbled (raw : string)
  | Jws (alg : string) (payload : pydict) (signature : string).

Definition usec_per_sec : Z := 1000000.

(** A [datetime] claim becomes a NumericDate, in whole seconds. *)
Definition numeric_date (v : pyval) : pyval :=
  match v with
  | PDatetime us => PInt (us / usec_per_sec)
  | _ => v
  end.

Definition time_claims : list string := ["exp"; "iat"; "nbf"].

Definition json_payload (payload : pydict) : pydict :=
  foldr (fun c p => alter numeric_date c p) payload time_claims.

Definition is_datetime (v : pyval) : bool :=
  match v with PDatetime _ => true | _ => false end.

(** [json.dumps] refuses a [datetime]. *)
Definition json_serializable (p : pydict) : bool :=
  bool_decide (map_Forall (fun _ v => is_datetime v = false) p).

(** [jwt.encode(payload, key, algorithm=alg)]; it works on a copy of
    [payload]. *)
Definition jwt_encode (payload : pydict) (key alg : string) : outcome jwt :=
  let p := json_payload payload in
  if json_serializable p
  then Returns (Jws alg p (hmac_sign key alg p))
  else Raises TypeError.

(** The claim checks of [jwt.decode], at the instant [now] (microseconds).
    A time claim that [int] cannot read is refused with the error of that
    claim. *)
Definition validate_iat (payload : pydict) (now : Z) : outcome unit :=
  match payload !! "iat" with
  | None => Returns tt
  | Some v =>
      match py_int v with
      | Returns iat =>
          if now <? iat * usec_per_sec
          then Raises (PyJWTError ImmatureSignatureError)
          else Returns tt
      | Raises _ => Raises (PyJWTError InvalidIssuedAtError)
      end
  end.

Definition validate_nbf (payload : pydict) (now : Z) : outcome unit :=
  match payload !! "nbf" with
  | None => Returns tt
  | Some v =>
      match py_int v with
      | Returns nbf =>
          if now <? nbf * usec_per_sec
          then Raises (PyJWTError ImmatureSignatureError)
          else Returns tt
      | Raises _ => Raises (PyJWTError DecodeError)
      end
  end.

Definition validate_exp (payload : pydict) (now : Z) : outcome unit :=
  match payload !! "exp" with
  | None => Returns tt
  | Some v =>
      match py_int v with
      | Returns exp =>
          if exp * usec_per_sec <=? now
          then Raises (PyJWTError ExpiredSignatureError)
          else Returns tt
      | Raises _ => Raises (PyJWTError DecodeError)
      end
  end.

(** No audience is expected: a token that names one is refused. *)
Definition validate_aud (payload : pydict) : outcome unit :=
  if truthy (dict_get payload "aud")
  then Raises (PyJWTError InvalidAudienceError)
  else Returns tt.

Definition is_text (v : pyval) : bool :=
  match v with PStr _ => true | _ => false end.

Definition validate_sub (payload : pydict) : outcome unit :=
  match payload !! "sub" with
  | None => Returns tt
  | Some v =>
      if is_text v then Returns tt
      else Raises (PyJWTError InvalidSubjectError)
  end.

Definition validate_jti (payload : pydict) : outcome unit :=
  match payload !! "jti" with
  | None => Returns tt
  | Some v =>
      if is_text v then Returns tt
      else Raises (PyJWTError InvalidJTIError)
  end.

(** One check after another; the first failure ends the validation. *)
Definition and_then (o : outcome unit) (next : outcome unit) : outcome unit :=
  match o with
  | Returns _ => next
  | Raises x => Raises x
  end.

Definition validate_claims (payload : pydict) (now : Z) : outcome unit :=
  and_then (validate_iat payload now)
    (and_then (validate_nbf payload now)
       (and_then (validate_exp payload now)
          (and_then (validate_aud payload)
             (and_then (validate_sub payload)
                (validate_jti payload))))).

(** [jwt.decode(token, key, algorithms=algorithms)]: parse, check the
    header algorithm, verify the signature, then validate the claims. *)
Definition jwt_decode (token : jwt) (key : string) (algorithms : list string)
    (now : Z) : outcome pydict :=
  match token with
  | Garbled _ => Raises (PyJWTError DecodeError)
  | Jws alg payload signature =>
      if String.eqb alg "" || negb (bool_decide (alg ∈ algorithms))
      then Raises (PyJWTError InvalidAlgorithmError)
      else if negb (String.eqb signature (hmac_sign key alg payload))
      then Raises (PyJWTError InvalidSignatureError)
      else match validate_claims payload now with
           | Returns _ => Returns payload
           | Raises x => Raises x
           end
  end.

(** ** Security settings *)

Definition SECRET_KEY : string := "your-secret-key".
Definition ALGORITHM : string := "HS256".
Definition ACCESS_TOKEN_EXPIRE_MINUTES : Z := 2.

(** [timedelta(minutes=m)], in microseconds. *)
Definition timedelta_minutes (m : Z) : Z := m * 60 * usec_per_sec.

(** ** Schemas *)

Record Token := {
  access_token : jwt;
  token_type : string
}.

Record LoginRequest := {
  username : string;
  password : string
}.

(** ** Helper functions *)

(** [expires_delta or timedelta(minutes=ACCESS_TOKEN_EXPIRE_MINUTES)]: a
    zero [timedelta] is false. *)
Definition delta_or_default (expires_delta : option Z) : Z :=
  match expires_delta with
  | Some d => if d =? 0 then timedelta_minutes ACCESS_TOKEN_EXPIRE_MINUTES else d
  | None => timedelta_minutes ACCESS_TOKEN_EXPIRE_MINUTES
  end.

(** [data] is a reference to the caller's dictionary. *)
Definition create_access_token (data : nat) (expires_delta : option Z) : M jwt :=
  to_encode <- dict_copy data ;;
  e <- ask ;;
  let expire := clock e + delta_or_default expires_delta in
  upd <- alloc {["exp" := PDatetime expire]} ;;
  entries <- deref upd ;;
  mutate to_encode (fun d => dict_update d entries) ;;
  claims <- deref to_encode ;;
  lift (jwt_encode claims SECRET_KEY ALGORITHM).

Definition verify_password (plain : string) (hashed : pyval) : M bool :=
  emit (PwdVerify plain hashed) ;;
  match pwd_verify plain hashed with
  | Some b => ret b
  | None => raise PasslibError
  end.

(** [mc.get(key)]: the client refuses a key before it asks the server. *)
Definition mc_get (key : string) : M (option pydict) :=
  if key_accepted key
  then emit (StoreGet key) ;; e <- ask ;; ret (store e !! key)
  else raise MemcachedKeyError.

Definition get_user (username : pyval) : M (option pydict) :=
  let key := "user:" +:+ py_str username in
  user <- mc_get key ;;
  emit (Printed user) ;;
  ret user.

(** Past a guard [if not user], [user] is a dictionary. *)
Definition the_dict (user : option pydict) : pydict := default ∅ user.

(** The two [except] clauses of [get_current_user], in order. *)
Definition jwt_handlers {A} (x : exn) : option (M A) :=
  match x with
  | PyJWTError ExpiredSignatureError =>
      Some (raise (HTTPException 401 "Token expired"))
  | PyJWTError _ =>
      Some (raise (HTTPException 401 "Invalid token"))
  | _ => None
  end.

(** [credentials] is the token that [HTTPBearer] took from the
    [Authorization] header. *)
Definition get_current_user (credentials : jwt) : M pydict :=
  let token := credentials in
  try_except
    (e <- ask ;;
     payload <- lift (jwt_decode token SECRET_KEY [ALGORITHM] (clock e)) ;;
     let username := dict_get payload "sub" in
     if negb (truthy username)
     then raise (HTTPException 401 "Invalid token payload")
     else
       user <- get_user username ;;
       if negb (opt_truthy user)
       then raise (HTTPException 404 "User not found")
       else ret (the_dict user))
    jwt_handlers.

(** ** Routes *)

Definition login (form : LoginRequest) : M Token :=
  user <- get_user (PStr (username form)) ;;
  failed <- or_else (negb (opt_truthy user))
              (ok <- verify_password (password form)
                       (dict_get_or (the_dict user) "hashed_password" (PStr "")) ;;
               ret (negb ok)) ;;
  if failed : bool
  then raise (HTTPException 401 "Incorrect username or password")
  else
    sub <- dict_index (the_dict user) "username" ;;
    data <- alloc {["sub" := sub]} ;;
    tok <- create_access_token data None ;;
    ret {| access_token := tok; token_type := "bearer" |}.

Definition protected_route (user : pydict) : M pydict :=
  full_name <- dict_index user "full_name" ;;
  ret {["message" := PStr ("Hello, " +:+ py_str full_name
                           +:+ "! This is a protected endpoint.")]}.

Definition protected_admin_route (user : pydict) : M pydict :=
  if negb (truthy (dict_get user "admin"))
  then raise (HTTPException 403 "Admin access required")
  else
    full_name <- dict_index user "full_name" ;;
    ret {["message" := PStr ("Welcome Admin " +:+ py_str full_name
                             +:+ "! You have access to this route.")]}.

(** [GET /protected] and [GET /protected2]: the route after its
    [Depends(get_current_user)]. *)
Definition GET_protected (credentials : jwt) : M pydict :=
  user <- get_current_user credentials ;; protected_route user.

Definition GET_protected2 (credentials : jwt) : M pydict :=
  user <- get_current_user credentials ;; protected_admin_route user.

(** ** Seed data ([preload_memcache.py]) *)

Definition hash_pw (pw : string) : string := pwd_hash pw.

Definition fake_users_db : gmap string pydict :=
  {[ "john" := {[ "username" := PStr "john";
                  "full_name" := PStr "John Doe";
                  "email" := PStr "johndoe@example.com";
                  "hashed_password" := PStr (hash_pw "johnpword");
                  "admin" := PBool true;
                  "disabled" := PBool false ]};
     "jane" := {[ "username" := PStr "jane";
                  "full_name" := PStr "Jane Doe";
                  "email" := PStr "janedoe@example.com";
                  "hashed_password" := PStr (hash_pw "janepword");
                  "admin" := PBool false;
                  "disabled" := PBool false ]} ]}.

(** The user records the seeding loop writes: [mc.set(f"user:{username}", user)]
    for each entry. *)
Definition seeded_store : gmap string pydict :=
  kmap (fun username => "user:" +:+ username) fake_users_db.

End Engine.

(** ** The HTTP boundary *)

(** The status the framework answers with: 200 for a returned body, the
    code of an [HTTPException], 500 for any other exception. *)
Definition http_status {A} (o : outcome A) : Z :=
  match o with
  | Returns _ => 200
  | Raises (HTTPException c _) => c
  | Raises _ => 500
  end.

(** Tokens as the claims speak of them. *)
Section Tokens.
Context `{Primitives}.

Definition claims_of (t : jwt) : pydict :=
  match t with
  | Garbled _ => ∅
  | Jws _ payload _ => payload
  end.

(** Signed under the engine's secret with the configured algorithm. *)
Definition correctly_signed (t : jwt) : bool :=
  match t with
  | Garbled _ => false
  | Jws alg payload signature =>
      String.eqb alg ALGORITHM
      && String.eqb signature (hmac_sign SECRET_KEY alg payload)
  end.

(** A time claim is absent, or an integer on the right side of the clock. *)
Definition time_claim (p : pydict) (k : string) (ok : Z -> bool) : bool :=
  match p !! k with
  | None => true
  | Some v =>
      match py_int v with
      | Returns z => ok z
      | Raises _ => false
      end
  end.

Definition text_or_absent (p : pydict) (k : string) : bool :=
  match p !! k with
  | None => true
  | Some v => is_text v
  end.

(** Issued and valid by now: [iat] and [nbf], where present, do not lie
    ahead of the clock. *)
Definition mature (p : pydict) (now : Z) : bool :=
  time_claim p "iat" (fun iat => iat * usec_per_sec <=? now)
  && time_claim p "nbf" (fun nbf => nbf * usec_per_sec <=? now).

(** Not expired: no [exp], or one that lies ahead of the clock. *)
Definition unexpired (p : pydict) (now : Z) : bool :=
  time_claim p "exp" (fun exp => now <? exp * usec_per_sec).

(** The claims of a token [jwt.decode] lets through at [now]: mature,
    unexpired, no audience named, [sub] and [jti] text where present. *)
Definition claims_acceptable (p : pydict) (now : Z) : bool :=
  mature p now && unexpired p now
  && negb (truthy (dict_get p "aud"))
  && text_or_absent p "sub" && text_or_absent p "jti".

(** The calls of the password primitive recorded in a log. *)
Definition verify_calls (l : list event) : list (string * pyval) :=
  omap (fun ev => match ev with
                  | PwdVerify p h => Some (p, h)
                  | _ => None
                  end) l.

(** The store keys read in a log. *)
Definition store_reads (l : list event) : list string :=
  omap (fun ev => match ev with
                  | StoreGet k => Some k
                  | _ => None
                  end) l.

(** The failure [login] raises. *)
Definition bad_credentials : exn :=
  HTTPException 401 "Incorrect username or password".

(** The failure the admin route raises. *)
Definition admin_required : exn := HTTPException 403 "Admin access required".

(** The state after one [get_user]. *)
Definition looked_up (s : state) (key : string) (user : option pydict) : state :=
  State (heap s) (log s ++ [StoreGet key; Printed user]).

End Tokens.

(** ** A concrete set of primitives

    Executable stand-ins, used to run the handlers on sample requests: the
    tag spells out what it signs, a hash is the password behind a scheme
    prefix, and the context refuses a hash it cannot identify. *)
Module Demo.

Definition show (v : pyval) : string :=
  match v with
  | PNone => "null"
  | PBool b => if b then "true" else "false"
  | PInt z => pretty z
  | PStr s => "'" +:+ s +:+ "'"
  | PDatetime us => "@" +:+ pretty us
  end.

Definition tag (key alg : string) (p : pydict) : string :=
  foldr (fun kv acc => kv.1 +:+ ":" +:+ show kv.2 +:+ ";" +:+ acc)
        ("/" +:+ alg +:+ "/" +:+ key) (map_to_list p).

Definition scheme : string := "$2b$".

Definition verify (plain : string) (hashed : pyval) : option bool :=
  match hashed with
  | PStr h =>
      if String.prefix scheme h
      then Some (String.eqb h (scheme +:+ plain))
      else None
  | _ => None
  end.

Definition primitives : Primitives := {|
  hmac_sign := tag;
  pwd_hash := fun pw => scheme +:+ pw;
  pwd_verify := verify;
  int_of_text := fun _ => None;
  str_of_datetime := fun us => pretty us
|}.

(** 2023-11-14 22:13:20 UTC, and a token minted by hand for a subject. *)
Definition noon : Z := 1700000000 * usec_per_sec.

Definition forge (key : string) (p : pydict) : jwt :=
  @Jws ALGORITHM p (tag key ALGORITHM p).

(** Sample bearer tokens under the engine's key: a subject the store does
    not hold, one that expires at [noon], one with an empty and one with no
    subject. *)
Definition later : Z := 1700000100.
Definition ghost_token : jwt :=
  forge SECRET_KEY {[ "sub" := PStr "ghost"; "exp" := PInt later ]}.
Definition stale_token : jwt :=
  forge SECRET_KEY {[ "sub" := PStr "john"; "exp" := PInt 1700000000 ]}.
Definition blank_token : jwt :=
  forge SECRET_KEY {[ "sub" := PStr ""; "exp" := PInt later ]}.
Definition anonymous_token : jwt :=
  forge SECRET_KEY {[ "exp" := PInt later ]}.
Definition john_token : jwt :=
  forge SECRET_KEY {[ "sub" := PStr "john"; "exp" := PInt later ]}.
Definition jane_token : jwt :=
  forge SECRET_KEY {[ "sub" := PStr "jane"; "exp" := PInt later ]}.

Definition users : memcached := Memcached (@seeded_store primitives).
Definition john : pydict := @fake_users_db primitives !!! "john".
Definition jane : pydict := @fake_users_db primitives !!! "jane".

(** A store whose one record has the empty string for a username. *)
Definition nobody : pydict :=
  {[ "username" := PStr "";
     "full_name" := PStr "No Body";
     "email" := PStr "nobody@example.com";
     "hashed_password" := PStr (scheme +:+ "pw");
     "admin" := PBool false;
     "disabled" := PBool false ]}.
Definition nobody_store : memcached := Memcached {[ "user:" := nobody ]}.
Definition nobody_form : LoginRequest := {| username := ""; password := "pw" |}.
(** The token [login] issues for it at [noon]. *)
Definition nobody_token : jwt :=
  forge SECRET_KEY {[ "sub" := PStr ""; "exp" := PInt 1700000120 ]}.

(** A store whose one record lacks [hashed_password], and one whose john
    is disabled. *)
Definition hashless_store : memcached :=
  Memcached
    {[ "user:pat" := {[ "username" := PStr "pat"; "full_name" := PStr "Pat" ]} ]}.
Definition pat_form : LoginRequest := {| username := "pat"; password := "pw" |}.

Definition disabled_john : pydict :=
  <["disabled" := PBool true]> john.
Definition disabled_store : memcached :=
  Memcached (<["user:john" := disabled_john]> (@seeded_store primitives)).

Definition ghost_form : LoginRequest := {| username := "ghost"; password := "johnpword" |}.
Definition wrong_form : LoginRequest := {| username := "john"; password := "guess" |}.

(** A token signed under another key, a store whose record is an empty
    dictionary, records without a [username] and without a [full_name], and
    a record whose [admin] is the text "false". *)
Definition foreign_token : jwt :=
  forge "another-key" {[ "sub" := PStr "john"; "exp" := PInt later ]}.
Definition hollow_store : memcached := Memcached {[ "user:john" := ∅ ]}.
Definition nameless_store : memcached :=
  Memcached
    {[ "user:sam" := {[ "full_name" := PStr "Sam";
                        "hashed_password" := PStr (scheme +:+ "pw") ]} ]}.
Definition sam_form : LoginRequest := {| username := "sam"; password := "pw" |}.
Definition faceless : pydict := {[ "username" := PStr "kim"; "admin" := PBool true ]}.
Definition wordy : pydict :=
  {[ "username" := PStr "lee"; "full_name" := PStr "Lee"; "admin" := PStr "false" ]}.

(** Tokens under the engine's key that carry more than [sub] and [exp]: one
    past its [exp] and not yet valid, one with an empty subject and an
    audience; and a login for a username with a blank in it. *)
Definition early_stale_token : jwt :=
  forge SECRET_KEY {[ "sub" := PStr "john"; "exp" := PInt 1700000000;
                      "nbf" := PInt later ]}.
Definition blank_aud_token : jwt :=
  forge SECRET_KEY {[ "sub" := PStr ""; "exp" := PInt later;
                      "aud" := PStr "x" ]}.

Definition john_form : LoginRequest := {| username := "john"; password := "johnpword" |}.
Definition jane_form : LoginRequest := {| username := "jane"; password := "janepword" |}.

End Demo.

(** ** Waiting for the store ([preload_memcache.py])

    [wait_for_memcached] probes the server up to [attempts] times.  What the
    server does is outside the program: [server i] is what pass [i] of the
    [try] block observes.  The delay is a float the function only hands to
    [time.sleep], outside the [try]: its type is left open, [sleep_ok] says
    whether [time.sleep] takes the value (it raises on a negative one and
    on a NaN), and every sleep that was taken is recorded. *)
Module Preload.

Inductive probe :=
  | SetRaises                      (* mc.set raises *)
  | GetRaises                      (* mc.get raises *)
  | GetReturns (v : option pyval). (* mc.get returns v, None for a miss *)

(** [mc.get("_health") == "ok"] on a pass that raised nothing. *)
Definition healthy (p : probe) : bool :=
  match p with
  | GetReturns (Some (PStr s)) => String.eqb s "ok"
  | _ => false
  end.

Inductive waited :=
  | Client (addr : string)          (* return mc *)
  | RuntimeError (message : string)
  | SleepRaises.                    (* the exception of time.sleep *)

Section Wait.
Context {D : Type} (sleep_ok : D -> bool).

(** The [for] loop from pass [i] on, with [n] passes left; the second
    component lists the sleeps that were taken. *)
Fixpoint wait_loop (server : nat -> probe) (addr : string) (delay : D)
    (i n : nat) : waited * list D :=
  match n with
  | O => (RuntimeError ("Memcached not ready at " +:+ addr), [])
  | S n' =>
      if healthy (server i)
      then (Client addr, [])
      else if sleep_ok delay
      then let '(r, sleeps) := wait_loop server addr delay (S i) n' in
           (r, delay :: sleeps)
      else (SleepRaises, [])
  end.

(** [range(attempts)] is empty for a negative [attempts]. *)
Definition wait_for_memcached (server : nat -> probe) (addr : string)
    (attempts : Z) (delay : D) : waited * list D :=
  wait_loop server addr delay 0 (Z.to_nat attempts).

End Wait.

(** The default of [attempts]. *)
Definition default_attempts : Z := 30.

(** Whole seconds as delays, for sample runs. *)
Definition whole_seconds_ok (d : Z) : bool := 0 <=? d.

(** A server that comes up at its third probe, and one that stays down. *)
Definition slow_server (i : nat) : probe :=
  if (i <? 2)%nat then GetReturns None else GetReturns (Some (PStr "ok")).
Definition dead_server (i : nat) : probe := SetRaises.

End Preload.

(** * Properties *)

(** ** The memcached client *)

Lemma drop_final_newline_ok (k : string) :
  key_bytes_ok k = true -> drop_final_newline k = k.
Proof.
  induction k as [|a k IH]; [done|]. simpl.
  intros [Ha Hk]%andb_true_iff.
  destruct k as [|b k'].
  - destruct (Ascii.eqb a newline) eqn:Hn; [|done].
    apply Ascii.eqb_eq in Hn. subst a. discriminate Ha.
  - by rewrite IH.
Qed.

(** A key a server can hold is a key the client lets through. *)
Lemma key_storable_accepted (k : string) :
  key_storable k = true -> key_accepted k = true.
Proof.
  unfold key_storable, key_accepted, key_bytes_match.
  intros [[Hlen Hne]%andb_true_iff Hok]%andb_true_iff.
  rewrite (drop_final_newline_ok k Hok). by rewrite Hlen, Hne, Hok.
Qed.

Lemma lookup_memcached_accepted (st : memcached) (k : string) (u : pydict) :
  st !! k = Some u -> key_accepted k = true.
Proof.
  unfold lookup, memcached_lookup.
  destruct (key_storable k) eqn:Hk; [|discriminate].
  intros _. by apply key_storable_accepted.
Qed.

(** ** The token library *)

Section JwtFacts.
Context `{Primitives}.

Lemma correctly_signed_inv (t : jwt) :
  correctly_signed t = true ->
  t = @Jws ALGORITHM (claims_of t) (hmac_sign SECRET_KEY ALGORITHM (claims_of t)).
Proof.
  destruct t as [raw|alg payload sg]; simpl; [discriminate|].
  intros Hs. apply andb_true_iff in Hs as [Ha Hg].
  apply String.eqb_eq in Ha, Hg. by subst.
Qed.

Lemma correctly_signed_own (p : pydict) :
  correctly_signed (Jws ALGORITHM p (hmac_sign SECRET_KEY ALGORITHM p)) = true.
Proof. unfold correctly_signed. by rewrite !String.eqb_refl. Qed.

(** On a correctly signed token [jwt.decode] gets as far as the claims. *)
Lemma jwt_decode_signed (t : jwt) (now : Z) :
  correctly_signed t = true ->
  jwt_decode t SECRET_KEY [ALGORITHM] now =
    match validate_claims (claims_of t) now with
    | Returns _ => Returns (claims_of t)
    | Raises x => Raises x
    end.
Proof.
  intros Hs. rewrite (correctly_signed_inv t Hs) at 1.
  unfold jwt_decode. rewrite String.eqb_refl.
  replace (String.eqb ALGORITHM "") with false by reflexivity.
  rewrite bool_decide_true by (apply list_elem_of_singleton; reflexivity).
  reflexivity.
Qed.

(** A token that is not correctly signed never gets past [jwt.decode]. *)
Lemma jwt_decode_unsigned (t : jwt) (now : Z) :
  correctly_signed t = false ->
  exists cls, jwt_decode t SECRET_KEY [ALGORITHM] now = Raises (PyJWTError cls)
              /\ cls <> ExpiredSignatureError.
Proof.
  destruct t as [raw|alg p sg]; simpl.
  - intros _. by exists DecodeError.
  - intros Hs.
    destruct (String.eqb alg "" || negb (bool_decide (alg ∈ [ALGORITHM])))
      eqn:Halg; [by exists InvalidAlgorithmError|].
    apply orb_false_iff in Halg as [_ Hin].
    apply negb_false_iff, bool_decide_eq_true in Hin.
    apply list_elem_of_singleton in Hin. subst alg.
    rewrite String.eqb_refl in Hs. simpl in Hs. rewrite Hs. simpl.
    by exists InvalidSignatureError.
Qed.

(** A token whose signature does not match fails before any claim is read. *)
Lemma jwt_decode_bad_signature (alg sg : string) (p : pydict) (now : Z) :
  sg <> hmac_sign SECRET_KEY alg p ->
  exists cls, jwt_decode (Jws alg p sg) SECRET_KEY [ALGORITHM] now
              = Raises (PyJWTError cls)
              /\ cls <> ExpiredSignatureError.
Proof.
  intros Hne. unfold jwt_decode.
  destruct (String.eqb alg "" || negb (bool_decide (alg ∈ [ALGORITHM]))).
  - by exists InvalidAlgorithmError.
  - apply String.eqb_neq in Hne. rewrite Hne. by exists InvalidSignatureError.
Qed.

(** Each check against its reading in [claims_acceptable]. *)
Lemma validate_iat_spec (p : pydict) (now : Z) :
  (validate_iat p now = Returns tt
   /\ time_claim p "iat" (fun iat => iat * usec_per_sec <=? now) = true)
  \/ (exists cls, validate_iat p now = Raises (PyJWTError cls)
                  /\ cls <> ExpiredSignatureError)
     /\ time_claim p "iat" (fun iat => iat * usec_per_sec <=? now) = false.
Proof.
  unfold validate_iat, time_claim.
  destruct (p !! "iat") as [v|]; [|by left].
  destruct (py_int v) as [z|x]; [|right; split; [by eexists|done]].
  destruct (Z.ltb_spec now (z * usec_per_sec)).
  - right. split; [by eexists|]. by apply Z.leb_gt.
  - left. split; [done|]. by apply Z.leb_le.
Qed.

Lemma validate_nbf_spec (p : pydict) (now : Z) :
  (validate_nbf p now = Returns tt
   /\ time_claim p "nbf" (fun nbf => nbf * usec_per_sec <=? now) = true)
  \/ (exists cls, validate_nbf p now = Raises (PyJWTError cls)
                  /\ cls <> ExpiredSignatureError)
     /\ time_claim p "nbf" (fun nbf => nbf * usec_per_sec <=? now) = false.
Proof.
  unfold validate_nbf, time_claim.
  destruct (p !! "nbf") as [v|]; [|by left].
  destruct (py_int v) as [z|x]; [|right; split; [by eexists|done]].
  destruct (Z.ltb_spec now (z * usec_per_sec)).
  - right. split; [by eexists|]. by apply Z.leb_gt.
  - left. split; [done|]. by apply Z.leb_le.
Qed.

Lemma validate_exp_spec (p : pydict) (now : Z) :
  (validate_exp p now = Returns tt /\ unexpired p now = true)
  \/ (exists cls, validate_exp p now = Raises (PyJWTError cls))
     /\ unexpired p now = false.
Proof.
  unfold validate_exp, unexpired, time_claim.
  destruct (p !! "exp") as [v|]; [|by left].
  destruct (py_int v) as [z|x]; [|right; split; [by eexists|done]].
  destruct (Z.leb_spec (z * usec_per_sec) now).
  - right. split; [by eexists|]. by apply Z.ltb_ge.
  - left. split; [done|]. by apply Z.ltb_lt.
Qed.

Lemma validate_sub_spec (p : pydict) :
  (validate_sub p = Returns tt /\ text_or_absent p "sub" = true)
  \/ validate_sub p = Raises (PyJWTError InvalidSubjectError)
     /\ text_or_absent p "sub" = false.
Proof.
  unfold validate_sub, text_or_absent.
  destruct (p !! "sub") as [v|]; [|by left].
  destruct (is_text v); [by left|by right].
Qed.

Lemma validate_jti_spec (p : pydict) :
  (validate_jti p = Returns tt /\ text_or_absent p "jti" = true)
  \/ validate_jti p = Raises (PyJWTError InvalidJTIError)
     /\ text_or_absent p "jti" = false.
Proof.
  unfold validate_jti, text_or_absent.
  destruct (p !! "jti") as [v|]; [|by left].
  destruct (is_text v); [by left|by right].
Qed.

(** [jwt.decode] lets the claims through exactly when they are
    acceptable; otherwise it raises one of its own errors. *)
Lemma validate_claims_spec (p : pydict) (now : Z) :
  (validate_claims p now = Returns tt /\ claims_acceptable p now = true)
  \/ (exists cls, validate_claims p now = Raises (PyJWTError cls))
     /\ claims_acceptable p now = false.
Proof.
  unfold validate_claims, claims_acceptable, mature, validate_aud.
  destruct (validate_iat_spec p now) as [[-> ->]|[(c & -> & _) ->]];
    [|right; split; [by eexists|done]].
  destruct (validate_nbf_spec p now) as [[-> ->]|[(c & -> & _) ->]];
    [|right; split; [by eexists|done]].
  destruct (validate_exp_spec p now) as [[-> ->]|[(c & ->) ->]];
    [|right; split; [by eexists|done]].
  cbn [and_then andb].
  destruct (truthy (dict_get p "aud"));
    [right; split; [by eexists|done]|].
  destruct (validate_sub_spec p) as [[-> ->]|[-> ->]];
    [|right; split; [by eexists|done]].
  destruct (validate_jti_spec p) as [[-> ->]|[-> ->]];
    [by left|right; split; [by eexists|done]].
Qed.

Lemma validate_claims_acceptable (p : pydict) (now : Z) :
  claims_acceptable p now = true -> validate_claims p now = Returns tt.
Proof.
  intros Ha. destruct (validate_claims_spec p now) as [[Hv _]|[_ Hf]];
    [done|congruence].
Qed.

(** A mature token past its [exp] fails on the [exp] check. *)
Lemma validate_claims_expired (p : pydict) (v : pyval) (exp now : Z) :
  mature p now = true ->
  p !! "exp" = Some v ->
  py_int v = Returns exp ->
  exp * usec_per_sec <= now ->
  validate_claims p now = Raises (PyJWTError ExpiredSignatureError).
Proof.
  unfold mature. intros [Hiat Hnbf]%andb_true_iff He Hv Hle.
  unfold validate_claims.
  destruct (validate_iat_spec p now) as [[-> _]|[_ Hf]]; [|congruence].
  destruct (validate_nbf_spec p now) as [[-> _]|[_ Hf]]; [|congruence].
  cbn [and_then]. unfold validate_exp. rewrite He, Hv.
  destruct (Z.leb_spec (exp * usec_per_sec) now); [done|lia].
Qed.

(** The claims [login] issues are acceptable until their [exp]. *)
Lemma issued_claims_acceptable (name : string) (exp now : Z) :
  now < exp * usec_per_sec ->
  claims_acceptable {["sub" := PStr name; "exp" := PInt exp]} now = true.
Proof.
  intros Hlt. unfold claims_acceptable, mature, unexpired, time_claim,
    text_or_absent, dict_get.
  change (({["sub" := PStr name; "exp" := PInt exp]} : pydict) !! "iat")
    with (@None pyval).
  change (({["sub" := PStr name; "exp" := PInt exp]} : pydict) !! "nbf")
    with (@None pyval).
  change (({["sub" := PStr name; "exp" := PInt exp]} : pydict) !! "aud")
    with (@None pyval).
  change (({["sub" := PStr name; "exp" := PInt exp]} : pydict) !! "jti")
    with (@None pyval).
  change (({["sub" := PStr name; "exp" := PInt exp]} : pydict) !! "exp")
    with (Some (PInt exp)).
  change (({["sub" := PStr name; "exp" := PInt exp]} : pydict) !! "sub")
    with (Some (PStr name)).
  cbn [py_int is_text truthy default from_option id negb andb].
  apply Z.ltb_lt in Hlt. by rewrite Hlt.
Qed.

(** What an acceptable payload says about [exp] and [sub]. *)
Lemma claims_acceptable_exp (p : pydict) (exp now : Z) :
  claims_acceptable p now = true ->
  p !! "exp" = Some (PInt exp) ->
  now < exp * usec_per_sec.
Proof.
  unfold claims_acceptable. intros Ha He.
  apply andb_true_iff in Ha as [Ha _]. apply andb_true_iff in Ha as [Ha _].
  apply andb_true_iff in Ha as [Ha _]. apply andb_true_iff in Ha as [_ Ha].
  unfold unexpired, time_claim in Ha. rewrite He in Ha. cbn [py_int] in Ha.
  by apply Z.ltb_lt.
Qed.

End JwtFacts.

(** ** Authentication *)

Section Authenticate.
Context `{Primitives}.

Lemma get_user_run (name : pyval) st now s :
  key_accepted ("user:" +:+ py_str name) = true ->
  run (get_user name) st now s =
    (Returns (st !! ("user:" +:+ py_str name)),
     looked_up s ("user:" +:+ py_str name) (st !! ("user:" +:+ py_str name))).
Proof.
  intros Hk. unfold run, get_user, mc_get, looked_up, bind. rewrite Hk.
  unfold bind, emit, ask, ret. simpl. by rewrite <- app_assoc.
Qed.

(** A key the client refuses: nothing is read and nothing is printed. *)
Lemma get_user_refused (name : pyval) st now s :
  key_accepted ("user:" +:+ py_str name) = false ->
  run (get_user name) st now s = (Raises MemcachedKeyError, s).
Proof.
  intros Hk. unfold run, get_user, mc_get, bind. by rewrite Hk.
Qed.

Lemma truthy_str (name : string) : name <> "" -> truthy (PStr name) = true.
Proof.
  intros Hn. simpl. apply negb_true_iff. by apply String.eqb_neq.
Qed.

Lemma get_current_user_unsigned (t : jwt) st now s :
  correctly_signed t = false ->
  run (get_current_user t) st now s
    = (Raises (HTTPException 401 "Invalid token"), s).
Proof.
  intros Hs. destruct (jwt_decode_unsigned t now Hs) as (cls & Hd & Hc).
  unfold run, get_current_user, try_except, bind, ask, lift.
  cbn -[jwt_decode]. rewrite Hd. by destruct cls.
Qed.

(** A correctly signed token whose claims the library refuses. *)
Lemma get_current_user_refused_claims (t : jwt) (cls : jwt_error) st now s :
  correctly_signed t = true ->
  validate_claims (claims_of t) now = Raises (PyJWTError cls) ->
  run (get_current_user t) st now s
    = (Raises (HTTPException 401
                 (match cls with
                  | ExpiredSignatureError => "Token expired"
                  | _ => "Invalid token"
                  end)), s).
Proof.
  intros Hs Hv.
  unfold run, get_current_user, try_except, bind, ask, lift.
  cbn -[jwt_decode]. rewrite (jwt_decode_signed _ _ Hs), Hv.
  by destruct cls.
Qed.

(** [get_current_user] on a token that [jwt.decode] lets through. *)
Lemma get_current_user_valid_run (t : jwt) st now s :
  correctly_signed t = true ->
  claims_acceptable (claims_of t) now = true ->
  let sub := dict_get (claims_of t) "sub" in
  let key := "user:" +:+ py_str sub in
  run (get_current_user t) st now s
    = if truthy sub
      then if key_accepted key
           then (if opt_truthy (st !! key)
                 then Returns (the_dict (st !! key))
                 else Raises (HTTPException 404 "User not found"),
                 looked_up s key (st !! key))
           else (Raises MemcachedKeyError, s)
      else (Raises (HTTPException 401 "Invalid token payload"), s).
Proof.
  intros Hs Ha sub key.
  unfold run, get_current_user, try_except, bind at 1, ask, lift.
  cbn -[jwt_decode get_user].
  rewrite (jwt_decode_signed _ _ Hs), (validate_claims_acceptable _ _ Ha).
  unfold bind at 1. cbn -[get_user]. fold sub.
  destruct (truthy sub); [|reflexivity].
  unfold bind. cbn [negb].
  destruct (key_accepted key) eqn:Hk.
  - pose proof (get_user_run sub st now s Hk) as Hg. unfold run in Hg.
    rewrite Hg. fold key.
    unfold raise, ret. by destruct (opt_truthy (st !! key)).
  - pose proof (get_user_refused sub st now s Hk) as Hg. unfold run in Hg.
    by rewrite Hg.
Qed.

Lemma get_current_user_expired (t : jwt) (v : pyval) (exp : Z) st now s :
  correctly_signed t = true ->
  mature (claims_of t) now = true ->
  claims_of t !! "exp" = Some v ->
  py_int v = Returns exp ->
  exp * usec_per_sec <= now ->
  run (get_current_user t) st now s
    = (Raises (HTTPException 401 "Token expired"), s).
Proof.
  intros Hs Hm He Hv Hle.
  by rewrite (get_current_user_refused_claims t ExpiredSignatureError st now s
                Hs (validate_claims_expired _ _ _ _ Hm He Hv Hle)).
Qed.

Lemma get_current_user_falsy_sub (t : jwt) st now s :
  correctly_signed t = true ->
  claims_acceptable (claims_of t) now = true ->
  truthy (dict_get (claims_of t) "sub") = false ->
  run (get_current_user t) st now s
    = (Raises (HTTPException 401 "Invalid token payload"), s).
Proof.
  intros Hs Ha Hsub.
  rewrite (get_current_user_valid_run t st now s Hs Ha). cbv zeta.
  by rewrite Hsub.
Qed.

(** For an accepted token whose subject the store does not hold,
    [get_current_user] raises [HTTPException(404)]. *)
Lemma get_current_user_unknown_principal (t : jwt) (name : string)
    (st : memcached) (now : Z) (s : state) :
  correctly_signed t = true ->
  claims_acceptable (claims_of t) now = true ->
  claims_of t !! "sub" = Some (PStr name) ->
  name <> "" ->
  key_accepted ("user:" +:+ name) = true ->
  st !! ("user:" +:+ name) = None ->
  run (get_current_user t) st now s
    = (Raises (HTTPException 404 "User not found"),
       looked_up s ("user:" +:+ name) None).
Proof.
  intros Hs Ha Hsub Hn Hk Hst.
  rewrite (get_current_user_valid_run t st now s Hs Ha). cbv zeta.
  unfold dict_get. rewrite Hsub. cbn [default from_option id py_str].
  by rewrite (truthy_str name Hn), Hk, Hst.
Qed.

(** For an accepted token whose subject names a record of the store,
    [get_current_user] returns that record. *)
Lemma get_current_user_found (t : jwt) (name : string) (u : pydict)
    (st : memcached) (now : Z) (s : state) :
  correctly_signed t = true ->
  claims_acceptable (claims_of t) now = true ->
  claims_of t !! "sub" = Some (PStr name) ->
  name <> "" ->
  st !! ("user:" +:+ name) = Some u ->
  u <> ∅ ->
  run (get_current_user t) st now s
    = (Returns u, looked_up s ("user:" +:+ name) (Some u)).
Proof.
  intros Hs Ha Hsub Hn Hst Hu.
  rewrite (get_current_user_valid_run t st now s Hs Ha). cbv zeta.
  unfold dict_get. rewrite Hsub. cbn [default from_option id py_str].
  rewrite (truthy_str name Hn), (lookup_memcached_accepted _ _ _ Hst), Hst.
  cbn [opt_truthy the_dict default from_option id]. unfold dict_truthy.
  by rewrite bool_decide_false.
Qed.

(** An accepted token for an empty stored record: 404. *)
Lemma get_current_user_hollow (t : jwt) (name : string)
    (st : memcached) (now : Z) (s : state) :
  correctly_signed t = true ->
  claims_acceptable (claims_of t) now = true ->
  claims_of t !! "sub" = Some (PStr name) ->
  name <> "" ->
  st !! ("user:" +:+ name) = Some ∅ ->
  run (get_current_user t) st now s
    = (Raises (HTTPException 404 "User not found"),
       looked_up s ("user:" +:+ name) (Some ∅)).
Proof.
  intros Hs Ha Hsub Hn Hst.
  rewrite (get_current_user_valid_run t st now s Hs Ha). cbv zeta.
  unfold dict_get. rewrite Hsub. cbn [default from_option id py_str].
  by rewrite (truthy_str name Hn), (lookup_memcached_accepted _ _ _ Hst), Hst.
Qed.

(** The other authentication failures do answer 401: a token that does not
    parse, and one whose signature does not match. *)
Lemma get_current_user_garbled (raw : string) st now s :
  run (get_current_user (Garbled raw)) st now s
    = (Raises (HTTPException 401 "Invalid token"), s).
Proof. reflexivity. Qed.

Lemma get_current_user_bad_signature (alg sg : string) (p : pydict) st now s :
  sg <> hmac_sign SECRET_KEY alg p ->
  run (get_current_user (Jws alg p sg)) st now s
    = (Raises (HTTPException 401 "Invalid token"), s).
Proof.
  intros Hne.
  destruct (jwt_decode_bad_signature alg sg p now Hne) as (cls & Hd & Hc).
  unfold run, get_current_user, try_except, bind, ask, lift.
  cbn -[jwt_decode]. rewrite Hd. by destruct cls.
Qed.

(** A token whose [sub] is false never reaches the store: whatever else is
    wrong with it, the answer is a 401 and the state is untouched. *)
Lemma get_current_user_no_subject (t : jwt) st now s :
  truthy (dict_get (claims_of t) "sub") = false ->
  exists detail,
    run (get_current_user t) st now s
      = (Raises (HTTPException 401 detail), s).
Proof.
  intros Hsub. destruct (correctly_signed t) eqn:Hs.
  2: { eexists. by apply get_current_user_unsigned. }
  destruct (validate_claims_spec (claims_of t) now)
    as [[_ Ha]|[(cls & Hv) _]].
  - eexists. by apply get_current_user_falsy_sub.
  - eexists. by apply (get_current_user_refused_claims t cls).
Qed.

End Authenticate.

Section AuthenticateClaims.
Context `{Primitives}.

(** C2, as the code has it.  A correctly signed token whose [iat] and
    [nbf], where present, do not lie ahead of the clock, and whose [exp] the
    clock has reached or passed, is reported as expired: [jwt.decode]
    raises [ExpiredSignatureError] (it has verified the signature before it
    reads a claim) and [get_current_user] answers 401 "Token expired"
    without touching the store.  A token that is not correctly signed is
    answered 401 "Invalid token", whatever its [exp]: the two failures are
    told apart. *)
Theorem expired_token_reports_expiry (t : jwt) (v : pyval) (exp : Z)
    (st : memcached) (now : Z) (s : state) :
  correctly_signed t = true ->
  mature (claims_of t) now = true ->
  claims_of t !! "exp" = Some v ->
  py_int v = Returns exp ->
  exp * usec_per_sec <= now ->
  jwt_decode t SECRET_KEY [ALGORITHM] now
    = Raises (PyJWTError ExpiredSignatureError)
  /\ run (get_current_user t) st now s
     = (Raises (HTTPException 401 "Token expired"), s)
  /\ forall forged : jwt,
       correctly_signed forged = false ->
       run (get_current_user forged) st now s
       = (Raises (HTTPException 401 "Invalid token"), s).
Proof.
  intros Hs Hm He Hv Hle. split; [|split].
  - rewrite (jwt_decode_signed _ _ Hs).
    by rewrite (validate_claims_expired _ _ _ _ Hm He Hv Hle).
  - by apply get_current_user_expired with v exp.
  - intros forged Hf. by apply get_current_user_unsigned.
Qed.

(** C8, as the code has it.  A token whose [sub] is absent or the empty
    string never reaches the store lookup and is answered 401, with the
    state the request started in; when the token is one [jwt.decode] lets
    through -- correctly signed, unexpired, its other registered claims
    acceptable -- the failure is "Invalid token payload". *)
Theorem empty_subject_is_malformed (t : jwt) (st : memcached) (now : Z)
    (s : state) :
  claims_of t !! "sub" = None \/ claims_of t !! "sub" = Some (PStr "") ->
  (exists detail,
     run (get_current_user t) st now s
       = (Raises (HTTPException 401 detail), s))
  /\ http_status (run (get_current_user t) st now s).1 = 401
  /\ store_reads (log (run (get_current_user t) st now s).2)
     = store_reads (log s)
  /\ (correctly_signed t = true ->
      claims_acceptable (claims_of t) now = true ->
      run (get_current_user t) st now s
        = (Raises (HTTPException 401 "Invalid token payload"), s)).
Proof.
  intros Hsub.
  assert (truthy (dict_get (claims_of t) "sub") = false) as Hf.
  { unfold dict_get. by destruct Hsub as [-> | ->]. }
  destruct (get_current_user_no_subject t st now s Hf) as [detail Hrun].
  split; [by exists detail|]. rewrite Hrun. split; [done|]. split; [done|].
  intros Hs Ha. rewrite <- Hrun. by apply get_current_user_falsy_sub.
Qed.

End AuthenticateClaims.

Lemma expired_token_reports_expiry_witness :
  (@correctly_signed Demo.primitives Demo.stale_token = true
   /\ @mature Demo.primitives (claims_of Demo.stale_token) Demo.noon = true
   /\ claims_of Demo.stale_token !! "exp" = Some (PInt 1700000000)
   /\ @py_int Demo.primitives (PInt 1700000000) = Returns 1700000000
   /\ 1700000000 * usec_per_sec <= Demo.noon)
  /\ run (@get_current_user Demo.primitives Demo.stale_token) Demo.users Demo.noon idle
     = (Raises (HTTPException 401 "Token expired"), idle).
Proof.
  assert (@correctly_signed Demo.primitives Demo.stale_token = true) as Hs
    by (vm_compute; reflexivity).
  assert (@mature Demo.primitives (claims_of Demo.stale_token) Demo.noon = true)
    as Hm by (vm_compute; reflexivity).
  assert (claims_of Demo.stale_token !! "exp" = Some (PInt 1700000000)) as He
    by (vm_compute; reflexivity).
  assert (@py_int Demo.primitives (PInt 1700000000) = Returns 1700000000)
    as Hv by reflexivity.
  assert (1700000000 * usec_per_sec <= Demo.noon) as Hle
    by (unfold Demo.noon; lia).
  split; [by repeat split|].
  exact (proj1 (proj2 (@expired_token_reports_expiry Demo.primitives
                         Demo.stale_token (PInt 1700000000) 1700000000
                         Demo.users Demo.noon idle Hs Hm He Hv Hle))).
Defined.

(** C2 fails for a token that is also not yet valid.  The token is
    correctly signed and its [exp] is the current instant, but its [nbf]
    lies ahead: [jwt.decode] raises on [nbf], which it checks before [exp],
    and the caller is told "Invalid token", as for a forged one. *)
Lemma expired_early_token_is_invalid :
  @correctly_signed Demo.primitives Demo.early_stale_token = true
  /\ claims_of Demo.early_stale_token !! "exp" = Some (PInt 1700000000)
  /\ 1700000000 * usec_per_sec <= Demo.noon
  /\ @jwt_decode Demo.primitives Demo.early_stale_token SECRET_KEY [ALGORITHM]
       Demo.noon
     = Raises (PyJWTError ImmatureSignatureError)
  /\ run (@get_current_user Demo.primitives Demo.early_stale_token) Demo.users
       Demo.noon idle
     = (Raises (HTTPException 401 "Invalid token"), idle).
Proof.
  split; [vm_compute; reflexivity|].
  split; [vm_compute; reflexivity|].
  split; [unfold Demo.noon, usec_per_sec; lia|].
  split; vm_compute; reflexivity.
Qed.

Lemma empty_subject_is_malformed_witness :
  (claims_of Demo.blank_token !! "sub" = Some (PStr "")
   /\ @correctly_signed Demo.primitives Demo.blank_token = true
   /\ @claims_acceptable Demo.primitives (claims_of Demo.blank_token) Demo.noon
      = true)
  /\ run (@get_current_user Demo.primitives Demo.blank_token) Demo.users Demo.noon idle
     = (Raises (HTTPException 401 "Invalid token payload"), idle).
Proof.
  assert (claims_of Demo.blank_token !! "sub" = Some (PStr "")) as Hb
    by (vm_compute; reflexivity).
  assert (@correctly_signed Demo.primitives Demo.blank_token = true) as Hs
    by (vm_compute; reflexivity).
  assert (@claims_acceptable Demo.primitives (claims_of Demo.blank_token)
            Demo.noon = true) as Ha by (vm_compute; reflexivity).
  split; [by repeat split|].
  exact (proj2 (proj2 (proj2 (@empty_subject_is_malformed Demo.primitives
           Demo.blank_token Demo.users Demo.noon idle (or_intror Hb)))) Hs Ha).
Defined.

(** C8 fails for a token that names an audience.  The token is correctly
    signed, its [exp] lies ahead and its [sub] is empty, but it carries an
    [aud]: [jwt.decode] refuses it, and the failure is "Invalid token", not
    "Invalid token payload". *)
Lemma blank_subject_with_audience_is_invalid_token :
  @correctly_signed Demo.primitives Demo.blank_aud_token = true
  /\ claims_of Demo.blank_aud_token !! "exp" = Some (PInt Demo.later)
  /\ Demo.noon < Demo.later * usec_per_sec
  /\ claims_of Demo.blank_aud_token !! "sub" = Some (PStr "")
  /\ run (@get_current_user Demo.primitives Demo.blank_aud_token) Demo.users
       Demo.noon idle
     = (Raises (HTTPException 401 "Invalid token"), idle).
Proof.
  split; [vm_compute; reflexivity|].
  split; [vm_compute; reflexivity|].
  split; [vm_compute; reflexivity|].
  split; vm_compute; reflexivity.
Qed.

(** The same for a token that carries no [sub] at all. *)
Example anonymous_token_is_malformed :
  run (@get_current_user Demo.primitives Demo.anonymous_token) Demo.users Demo.noon idle
  = (Raises (HTTPException 401 "Invalid token payload"), idle).
Proof. vm_compute. reflexivity. Qed.

(** C1.  The token is correctly signed and unexpired and names "ghost", whom
    the seeded store does not hold: [get_current_user] raises
    [HTTPException(404, "User not found")], so the caller sees status 404
    where the claim, and the function's own docstring, say 401. *)
Theorem unknown_principal_answers_404 :
  @correctly_signed Demo.primitives Demo.ghost_token = true
  /\ Demo.users !! "user:ghost" = None
  /\ (run (@get_current_user Demo.primitives Demo.ghost_token) Demo.users Demo.noon idle).1
     = Raises (HTTPException 404 "User not found")
  /\ http_status
       (run (@get_current_user Demo.primitives Demo.ghost_token) Demo.users Demo.noon idle).1
     = 404.
Proof.
  assert (@correctly_signed Demo.primitives Demo.ghost_token = true) as Hs
    by (vm_compute; reflexivity).
  assert (Demo.users !! "user:ghost" = None) as Hst
    by (vm_compute; reflexivity).
  assert (@claims_acceptable Demo.primitives (claims_of Demo.ghost_token)
            Demo.noon = true) as Ha by (vm_compute; reflexivity).
  assert (claims_of Demo.ghost_token !! "sub" = Some (PStr "ghost")) as Hsub
    by (vm_compute; reflexivity).
  assert ("ghost" <> "") as Hn by discriminate.
  assert (key_accepted ("user:" +:+ "ghost") = true) as Hk by reflexivity.
  pose proof (@get_current_user_unknown_principal Demo.primitives
                Demo.ghost_token "ghost" Demo.users Demo.noon idle
                Hs Ha Hsub Hn Hk Hst) as Hrun.
  split; [exact Hs|]. split; [exact Hst|].
  rewrite Hrun. split; reflexivity.
Qed.

(** ** Issuance *)

Section Issue.
Context `{Primitives}.

(** What [create_access_token] computes and what it leaves in the heap: two
    new objects, the copy [to_encode] with the expiry added and the literal
    passed to [update]. *)
Lemma alter_fresh (h tl : list pydict) (f : pydict -> pydict) (d : pydict) :
  alter f (length h) (h ++ d :: tl) = h ++ f d :: tl.
Proof.
  rewrite alter_app_r_alt by lia. by rewrite Nat.sub_diag.
Qed.

Lemma create_access_token_run (data : nat) (delta : option Z)
    (st : memcached) (now : Z) (s : state) :
  let d := default ∅ (heap s !! data) in
  let upd : pydict := {["exp" := PDatetime (now + delta_or_default delta)]} in
  run (create_access_token data delta) st now s
    = (jwt_encode (dict_update d upd) SECRET_KEY ALGORITHM,
       State (heap s ++ [dict_update d upd; upd]) (log s)).
Proof.
  intros d upd.
  unfold run, create_access_token, dict_copy, bind, deref, alloc, ask, mutate,
    lift. cbn -[jwt_encode dict_update delta_or_default].
  fold d. fold upd.
  replace (length (heap s ++ [d])) with (length (heap s) + 1)%nat
    by (rewrite length_app; reflexivity).
  assert ((heap s ++ [d] ++ [upd]) !! (length (heap s) + 1)%nat = Some upd)
    as Hupd.
  { rewrite lookup_app_r by lia.
    by replace (length (heap s) + 1 - length (heap s))%nat with 1%nat by lia. }
  rewrite <- (app_assoc (heap s) [d] [upd]). rewrite Hupd.
  cbn [default from_option id app].
  rewrite alter_fresh.
  rewrite list_lookup_middle by reflexivity.
  reflexivity.
Qed.

(** The JSON form of the claim set of a freshly issued token. *)
Lemma jwt_encode_issued (name : string) (expire : Z) :
  jwt_encode (dict_update {["sub" := PStr name]} {["exp" := PDatetime expire]})
    SECRET_KEY ALGORITHM
  = Returns (@Jws ALGORITHM
       {["sub" := PStr name; "exp" := PInt (expire / usec_per_sec)]}
       (hmac_sign SECRET_KEY ALGORITHM
          {["sub" := PStr name; "exp" := PInt (expire / usec_per_sec)]})).
Proof. reflexivity. Qed.

(** C7.  Issuing for a username at the instant [now], with no custom
    duration, builds the claim set [{sub: username, exp: now + 2 minutes}]
    and nothing else: it is the object [to_encode] the call leaves in the
    heap, next to the caller's [{sub: username}] and the literal given to
    [update].  The token carries exactly these two claims, [exp] as a
    NumericDate (whole seconds), signed under the secret. *)
Theorem issued_claim_set (name : string) (st : memcached) (now : Z)
    (s : state) :
  let expire := now + 2 * 60 * usec_per_sec in
  let payload : pydict :=
    {["sub" := PStr name; "exp" := PInt (expire / usec_per_sec)]} in
  run (data <- alloc {["sub" := PStr name]} ;; create_access_token data None)
      st now s
  = (Returns (@Jws ALGORITHM payload (hmac_sign SECRET_KEY ALGORITHM payload)),
     State (heap s ++ [ {["sub" := PStr name]};
                        {["sub" := PStr name; "exp" := PDatetime expire]};
                        {["exp" := PDatetime expire]} ])
           (log s)).
Proof.
  intros expire payload.
  unfold run, bind, alloc. cbn -[create_access_token].
  pose proof (create_access_token_run (length (heap s)) None st now
                (State (heap s ++ [{["sub" := PStr name]}]) (log s))) as Hrun.
  unfold run in Hrun. rewrite Hrun. clear Hrun.
  cbn [heap log]. rewrite list_lookup_middle by reflexivity.
  cbn [default from_option id].
  change (now + delta_or_default None) with expire.
  rewrite jwt_encode_issued. rewrite <- app_assoc. reflexivity.
Qed.

(** C10.  [create_access_token] works on a copy: the caller's dictionary
    holds after the call what it held before, whatever the call returns or
    raises, and so does every object that existed before the call.  The
    expiry went into the copy, a new object. *)
Theorem create_access_token_keeps_data (data : nat) (delta : option Z)
    (st : memcached) (now : Z) (s : state) (d : pydict) :
  heap s !! data = Some d ->
  let s' := (run (create_access_token data delta) st now s).2 in
  heap s' !! data = Some d
  /\ take (length (heap s)) (heap s') = heap s
  /\ heap s' !! length (heap s)
     = Some (<["exp" := PDatetime (now + delta_or_default delta)]> d).
Proof.
  intros Hd s'. subst s'. rewrite create_access_token_run.
  cbn [snd heap]. rewrite Hd. cbn [default from_option id].
  repeat split.
  - rewrite lookup_app_l; [done|]. by apply lookup_lt_Some with d.
  - by rewrite take_app_length.
  - rewrite list_lookup_middle by reflexivity.
    unfold dict_update. by rewrite insert_union_singleton_l.
Qed.

End Issue.

Lemma create_access_token_keeps_data_witness :
  let data : pydict := {["sub" := PStr "john"; "exp" := PInt 0]} in
  let s := State [data] [] in
  heap s !! 0%nat = Some data
  /\ heap (run (@create_access_token Demo.primitives 0 None) Demo.users Demo.noon s).2
       !! 0%nat = Some data.
Proof.
  intros data s.
  assert (heap s !! 0%nat = Some data) as Hd by reflexivity.
  split; [exact Hd|].
  exact (proj1 (@create_access_token_keeps_data Demo.primitives 0 None
                  Demo.users Demo.noon s data Hd)).
Defined.

(** ** Login *)

Lemma lookup_memcached_refused (st : memcached) (k : string) :
  key_accepted k = false -> st !! k = None.
Proof.
  intros Hk. destruct (st !! k) as [u|] eqn:Hst; [|done].
  apply lookup_memcached_accepted in Hst. congruence.
Qed.

Section Login.
Context `{Primitives}.

(** Every path of [login], with the state it ends in. *)
Lemma login_run (form : LoginRequest) (st : memcached) (now : Z)
    (s : state) :
  let key := "user:" +:+ username form in
  let user := st !! key in
  let s1 := looked_up s key user in
  let hashed := dict_get_or (the_dict user) "hashed_password" (PStr "") in
  let s2 := State (heap s1) (log s1 ++ [PwdVerify (password form) hashed]) in
  run (login form) st now s =
    if key_accepted key then
      if opt_truthy user then
        match pwd_verify (password form) hashed with
        | None => (Raises PasslibError, s2)
        | Some false => (Raises bad_credentials, s2)
        | Some true =>
            match the_dict user !! "username" with
            | None => (Raises (KeyError "username"), s2)
            | Some sub =>
                let upd : pydict :=
                  {["exp" := PDatetime (now + delta_or_default None)]} in
                let claims := dict_update {["sub" := sub]} upd in
                (match jwt_encode claims SECRET_KEY ALGORITHM with
                 | Returns tok =>
                     Returns {| access_token := tok; token_type := "bearer" |}
                 | Raises x => Raises x
                 end,
                 State (heap s2 ++ [ {["sub" := sub]}; claims; upd ]) (log s2))
            end
        end
      else (Raises bad_credentials, s1)
    else (Raises MemcachedKeyError, s).
Proof.
  intros key user s1 hashed s2.
  unfold run, login. unfold bind at 1.
  destruct (key_accepted key) eqn:Hk.
  2: { pose proof (get_user_refused (PStr (username form)) st now s Hk) as Hg.
       unfold run in Hg. by rewrite Hg. }
  pose proof (get_user_run (PStr (username form)) st now s Hk) as Hg.
  unfold run in Hg. rewrite Hg. clear Hg. cbn [py_str]. fold key user s1.
  destruct (opt_truthy user) eqn:Hu; cbn [negb or_else].
  2: { reflexivity. }
  unfold bind at 1. unfold bind at 1. unfold verify_password. fold hashed.
  unfold bind at 1. unfold emit at 1. fold s2.
  destruct (pwd_verify (password form) hashed) as [[|]|];
    cbn -[create_access_token]; try reflexivity.
  unfold dict_index.
  destruct (the_dict user !! "username") as [sub|];
    cbn -[create_access_token]; [|reflexivity].
  pose proof (create_access_token_run (length (heap s)) None st now
     (State (heap s ++ [{["sub" := sub]}])
            ((log s ++ [StoreGet key; Printed user])
               ++ [PwdVerify (password form) hashed]))) as Hrun.
  unfold run in Hrun. cbn [heap log] in Hrun.
  rewrite list_lookup_middle in Hrun by reflexivity.
  change (default ∅ (Some ?d)) with d in Hrun.
  unfold bind. rewrite Hrun. clear Hrun. rewrite <- app_assoc. cbn [app].
  unfold ret.
  by destruct (jwt_encode _ _ _).
Qed.

Lemma verify_calls_app (l k : list event) :
  verify_calls (l ++ k) = verify_calls l ++ verify_calls k.
Proof. apply omap_app. Qed.

Lemma verify_calls_looked_up (s : state) (key : string) (user : option pydict) :
  verify_calls (log (looked_up s key user)) = verify_calls (log s).
Proof.
  unfold looked_up. cbn [log]. rewrite verify_calls_app. cbn.
  by rewrite app_nil_r.
Qed.

(** C4, as the code has it.  [login] calls the password primitive exactly
    when the store holds a non-empty record under the username, and then
    once, against the record's [hashed_password] or, when the record lacks
    that field, against the empty string.  When the store holds no record
    (or an empty one) the guard [not user] decides alone and no
    verification is executed. *)
Theorem verification_runs_when_record_exists (form : LoginRequest)
    (st : memcached) (now : Z) (s : state) :
  verify_calls (log (run (login form) st now s).2)
  = verify_calls (log s) ++
    match st !! ("user:" +:+ username form) with
    | Some u =>
        if bool_decide (u = ∅) then []
        else [(password form, default (PStr "") (u !! "hashed_password"))]
    | None => []
    end.
Proof.
  rewrite login_run. cbv zeta.
  destruct (key_accepted ("user:" +:+ username form)) eqn:Hk.
  2: { rewrite (lookup_memcached_refused st _ Hk). cbn [snd].
       by rewrite app_nil_r. }
  destruct (st !! ("user:" +:+ username form)) as [u|] eqn:Hst;
    cbn [opt_truthy the_dict default from_option id].
  2: { cbn [snd]. rewrite verify_calls_looked_up. by rewrite app_nil_r. }
  unfold dict_truthy.
  destruct (bool_decide (u = ∅)); cbn [negb].
  { cbn [snd]. rewrite verify_calls_looked_up. by rewrite app_nil_r. }
  unfold dict_get_or.
  set (hashed := default (PStr "") (u !! "hashed_password")).
  set (s1 := looked_up s ("user:" +:+ username form) (Some u)).
  assert (verify_calls (log s1 ++ [PwdVerify (password form) hashed])
          = verify_calls (log s) ++ [(password form, hashed)]) as Hlog.
  { rewrite verify_calls_app. unfold s1. by rewrite verify_calls_looked_up. }
  destruct (pwd_verify (password form) hashed) as [[|]|]; cbn [snd log];
    try exact Hlog.
  destruct (u !! "username"); cbn [snd log]; exact Hlog.
Qed.


(** C3, as the code has it.  For a non-empty username whose record in the
    store carries that username and whose hash accepts the password, [login]
    returns a bearer token, and [get_current_user] on that token, over the
    same store and before the token's [exp], returns exactly that record. *)
Theorem login_then_authenticate (form : LoginRequest) (u : pydict)
    (st : memcached) (now later : Z) (s : state) :
  username form <> "" ->
  st !! ("user:" +:+ username form) = Some u ->
  u !! "username" = Some (PStr (username form)) ->
  pwd_verify (password form) (dict_get_or u "hashed_password" (PStr ""))
    = Some true ->
  later < (now + 2 * 60 * usec_per_sec) / usec_per_sec * usec_per_sec ->
  exists (tok : jwt) (s1 : state),
    run (login form) st now s
      = (Returns {| access_token := tok; token_type := "bearer" |}, s1)
    /\ forall s2, (run (get_current_user tok) st later s2).1 = Returns u.
Proof.
  intros Hname Hst Hun Hpw Hlater.
  assert (u <> ∅) as Hne.
  { intros ->. by rewrite lookup_empty in Hun. }
  rewrite login_run, (lookup_memcached_accepted _ _ _ Hst), Hst.
  cbn [opt_truthy the_dict default from_option id].
  unfold dict_truthy. rewrite bool_decide_false by done. cbn [negb].
  rewrite Hpw, Hun. cbv zeta. rewrite jwt_encode_issued.
  eexists _, _. split; [reflexivity|].
  intros s2.
  rewrite (get_current_user_found _ (username form) u); try done.
  - apply correctly_signed_own.
  - cbn [claims_of]. by apply issued_claims_acceptable.
Qed.

End Login.



Lemma login_then_authenticate_witness :
  (username Demo.john_form <> ""
   /\ Demo.users !! ("user:" +:+ username Demo.john_form)
      = Some (Demo.john)
   /\ Demo.john !! "username"
      = Some (PStr (username Demo.john_form))
   /\ @pwd_verify Demo.primitives (password Demo.john_form)
        (dict_get_or (Demo.john)
           "hashed_password" (PStr "")) = Some true
   /\ Demo.noon + 60 * usec_per_sec
      < (Demo.noon + 2 * 60 * usec_per_sec) / usec_per_sec * usec_per_sec)
  /\ exists (tok : jwt) (s1 : state),
       run (@login Demo.primitives Demo.john_form) Demo.users Demo.noon idle
         = (Returns {| access_token := tok; token_type := "bearer" |}, s1)
       /\ forall s2,
            (run (@get_current_user Demo.primitives tok) Demo.users
               (Demo.noon + 60 * usec_per_sec) s2).1
            = Returns (Demo.john).
Proof.
  assert (username Demo.john_form <> "") as H1 by discriminate.
  assert (Demo.users !! ("user:" +:+ username Demo.john_form)
          = Some (Demo.john)) as H2
    by (vm_compute; reflexivity).
  assert (Demo.john !! "username"
          = Some (PStr (username Demo.john_form))) as H3
    by (vm_compute; reflexivity).
  assert (@pwd_verify Demo.primitives (password Demo.john_form)
            (dict_get_or (Demo.john)
               "hashed_password" (PStr "")) = Some true) as H4
    by (vm_compute; reflexivity).
  assert (Demo.noon + 60 * usec_per_sec
          < (Demo.noon + 2 * 60 * usec_per_sec) / usec_per_sec * usec_per_sec)
    as H5 by (vm_compute; reflexivity).
  split; [by repeat split|].
  exact (@login_then_authenticate Demo.primitives Demo.john_form _ Demo.users
           Demo.noon (Demo.noon + 60 * usec_per_sec) idle H1 H2 H3 H4 H5).
Defined.

(** C3 fails for the empty username.  The store holds a record under the
    key of the empty username, with that username and a hash that accepts
    the password; [login] issues a token, and [get_current_user] refuses it
    at the very same instant, because its [sub] is empty. *)
Lemma empty_username_does_not_round_trip :
  Demo.nobody_store !! ("user:" +:+ username Demo.nobody_form) = Some Demo.nobody
  /\ Demo.nobody !! "username" = Some (PStr (username Demo.nobody_form))
  /\ @pwd_verify Demo.primitives (password Demo.nobody_form)
       (dict_get_or Demo.nobody "hashed_password" (PStr "")) = Some true
  /\ (run (@login Demo.primitives Demo.nobody_form) Demo.nobody_store Demo.noon idle).1
     = Returns {| access_token := Demo.nobody_token; token_type := "bearer" |}
  /\ (run (@get_current_user Demo.primitives Demo.nobody_token) Demo.nobody_store
        Demo.noon idle).1
     = Raises (HTTPException 401 "Invalid token payload").
Proof.
  split; [vm_compute; reflexivity|].
  split; [vm_compute; reflexivity|].
  split; [vm_compute; reflexivity|].
  split; vm_compute; reflexivity.
Qed.

(** C4 fails for an unknown username.  The seeded store holds nothing for
    "ghost", so there is no stored hash, and [login] answers without one
    call of the password primitive; for a stored user with a wrong password
    it makes one.  The logs tell the two failures apart. *)
Lemma unknown_user_skips_verification :
  Demo.users !! ("user:" +:+ username Demo.ghost_form) = None
  /\ verify_calls
       (log (run (@login Demo.primitives Demo.ghost_form) Demo.users Demo.noon idle).2)
     = []
  /\ verify_calls
       (log (run (@login Demo.primitives Demo.wrong_form) Demo.users Demo.noon idle).2)
     = [("guess", PStr "$2b$johnpword")].
Proof. vm_compute. done. Qed.

(** A record without [hashed_password] is verified against the empty
    string. *)
Example hashless_record_is_verified :
  verify_calls
    (log (run (@login Demo.primitives Demo.pat_form) Demo.hashless_store Demo.noon idle).2)
  = [("pw", PStr "")].
Proof. vm_compute. reflexivity. Qed.

(** ** Authorization *)

Section Authorize.
Context `{Primitives}.

Lemma protected_admin_route_denies (u : pydict) st now s :
  truthy (dict_get u "admin") = false ->
  run (protected_admin_route u) st now s = (Raises admin_required, s).
Proof.
  intros Hf. unfold run, protected_admin_route. by rewrite Hf.
Qed.

Lemma protected_admin_route_allows (u : pydict) (full_name : pyval) st now s :
  truthy (dict_get u "admin") = true ->
  u !! "full_name" = Some full_name ->
  run (protected_admin_route u) st now s
    = (Returns {["message" := PStr ("Welcome Admin " +:+ py_str full_name
                                   +:+ "! You have access to this route.")]},
       s).
Proof.
  intros Ht Hn. unfold run, protected_admin_route, bind, dict_index.
  by rewrite Ht, Hn.
Qed.

(** C6, as the code has it.  The admin route looks at the [admin] entry of
    the principal's record: absent or [False], it raises
    [HTTPException(403)]; [True], and the record has a [full_name], it
    returns its message for that name, a 200 answer. *)
Theorem admin_gate (u : pydict) (st : memcached) (now : Z) (s : state) :
  (u !! "admin" = None \/ u !! "admin" = Some (PBool false) ->
   run (protected_admin_route u) st now s
     = (Raises (HTTPException 403 "Admin access required"), s)
   /\ http_status (run (protected_admin_route u) st now s).1 = 403)
  /\ (u !! "admin" = Some (PBool true) ->
      forall full_name : pyval, u !! "full_name" = Some full_name ->
      run (protected_admin_route u) st now s
        = (Returns {["message" :=
                       PStr ("Welcome Admin " +:+ py_str full_name
                             +:+ "! You have access to this route.")]}, s)
      /\ http_status (run (protected_admin_route u) st now s).1 = 200).
Proof.
  split.
  - intros Hflag.
    rewrite protected_admin_route_denies; [done|].
    unfold dict_get. by destruct Hflag as [-> | ->].
  - intros Hflag full_name Hn.
    rewrite (protected_admin_route_allows u full_name); [done| |done].
    unfold dict_get. by rewrite Hflag.
Qed.


End Authorize.

Lemma admin_gate_witness :
  (Demo.jane !! "admin" = Some (PBool false)
   /\ run (@protected_admin_route Demo.primitives Demo.jane) Demo.users Demo.noon idle
      = (Raises (HTTPException 403 "Admin access required"), idle))
  /\ (Demo.john !! "admin" = Some (PBool true)
      /\ Demo.john !! "full_name" = Some (PStr "John Doe")
      /\ run (@protected_admin_route Demo.primitives Demo.john) Demo.users Demo.noon idle
         = (Returns {["message" :=
              PStr "Welcome Admin John Doe! You have access to this route."]},
            idle)).
Proof.
  assert (Demo.jane !! "admin" = Some (PBool false)) as Hjane
    by (vm_compute; reflexivity).
  assert (Demo.john !! "admin" = Some (PBool true)) as Hjohn
    by (vm_compute; reflexivity).
  assert (Demo.john !! "full_name" = Some (PStr "John Doe")) as Hname
    by (vm_compute; reflexivity).
  split.
  - split; [exact Hjane|].
    exact (proj1 (proj1 (@admin_gate Demo.primitives Demo.jane Demo.users
                           Demo.noon idle) (or_intror Hjane))).
  - split; [exact Hjohn|]. split; [exact Hname|].
    exact (proj1 (proj2 (@admin_gate Demo.primitives Demo.john Demo.users
                           Demo.noon idle) Hjohn (PStr "John Doe") Hname)).
Defined.

(** C6 fails for an admin record without a [full_name].  The flag is
    [True], the gate lets the principal through, and the message cannot be
    built: [user['full_name']] raises [KeyError], which no handler catches,
    and the answer is a 500, not a 200 with a payload. *)
Lemma admin_without_name_answers_500 :
  Demo.faceless !! "admin" = Some (PBool true)
  /\ (run (@protected_admin_route Demo.primitives Demo.faceless) Demo.users
        Demo.noon idle).1
     = Raises (KeyError "full_name")
  /\ http_status
       (run (@protected_admin_route Demo.primitives Demo.faceless) Demo.users
          Demo.noon idle).1
     = 500.
Proof.
  split; [vm_compute; reflexivity|].
  split; vm_compute; reflexivity.
Qed.


(** The disabled john passes the admin gate. *)
Example disabled_admin_is_welcome :
  (run (@GET_protected2 Demo.primitives Demo.john_token)
     Demo.disabled_store Demo.noon idle).1
  = Returns {["message" :=
       PStr "Welcome Admin John Doe! You have access to this route."]}.
Proof. vm_compute. reflexivity. Qed.

(** ** The seeded scenario

    With the two seeded users: john logs in and passes the admin gate, jane
    logs in and is denied, a wrong password issues nothing, and john's
    token is refused once its two minutes are over. *)
Example scenario_john_is_admin :
  (run (@login Demo.primitives Demo.john_form) Demo.users Demo.noon idle).1
  = Returns {| access_token :=
                 Demo.forge SECRET_KEY
                   {[ "sub" := PStr "john"; "exp" := PInt 1700000120 ]};
               token_type := "bearer" |}
  /\ (run (@GET_protected2 Demo.primitives
             (Demo.forge SECRET_KEY
                {[ "sub" := PStr "john"; "exp" := PInt 1700000120 ]}))
        Demo.users (Demo.noon + usec_per_sec) idle).1
     = Returns {["message" :=
         PStr "Welcome Admin John Doe! You have access to this route."]}.
Proof. split; vm_compute; reflexivity. Qed.

Example scenario_jane_is_denied :
  (run (@login Demo.primitives Demo.jane_form) Demo.users Demo.noon idle).1
  = Returns {| access_token :=
                 Demo.forge SECRET_KEY
                   {[ "sub" := PStr "jane"; "exp" := PInt 1700000120 ]};
               token_type := "bearer" |}
  /\ (run (@GET_protected2 Demo.primitives
             (Demo.forge SECRET_KEY
                {[ "sub" := PStr "jane"; "exp" := PInt 1700000120 ]}))
        Demo.users (Demo.noon + usec_per_sec) idle).1
     = Raises (HTTPException 403 "Admin access required").
Proof. split; vm_compute; reflexivity. Qed.

Example scenario_wrong_password :
  (run (@login Demo.primitives Demo.wrong_form) Demo.users Demo.noon idle).1
  = Raises (HTTPException 401 "Incorrect username or password").
Proof. vm_compute. reflexivity. Qed.

Example scenario_past_ttl :
  (run (@get_current_user Demo.primitives
          (Demo.forge SECRET_KEY
             {[ "sub" := PStr "john"; "exp" := PInt 1700000120 ]}))
     Demo.users (Demo.noon + 120 * usec_per_sec) idle).1
  = Raises (HTTPException 401 "Token expired").
Proof. vm_compute. reflexivity. Qed.

(** * Further properties of the handlers *)

(** ** Authentication, on every token *)

Section AuthenticateMore.
Context `{Primitives}.

(** X1.  A token that is not correctly signed -- text that does not parse,
    another algorithm in the header, a signature that is not the tag of the
    payload under the secret -- is answered 401 "Invalid token", whatever
    its claims say, and nothing is read or logged. *)
Theorem unsigned_token_is_rejected (t : jwt) (st : memcached)
    (now : Z) (s : state) :
  correctly_signed t = false ->
  run (get_current_user t) st now s
    = (Raises (HTTPException 401 "Invalid token"), s)
  /\ http_status (run (get_current_user t) st now s).1 = 401
  /\ (run (get_current_user t) st now s).2 = s.
Proof.
  intros Hs. by rewrite (get_current_user_unsigned t st now s Hs).
Qed.

(** What a returned principal tells about the request. *)
Lemma get_current_user_returns_inv (t : jwt) (u : pydict)
    (st : memcached) (now : Z) (s s' : state) :
  run (get_current_user t) st now s = (Returns u, s') ->
  correctly_signed t = true
  /\ claims_acceptable (claims_of t) now = true
  /\ exists sub : pyval,
       claims_of t !! "sub" = Some sub
       /\ truthy sub = true
       /\ st !! ("user:" +:+ py_str sub) = Some u
       /\ u <> ∅
       /\ s' = looked_up s ("user:" +:+ py_str sub) (Some u).
Proof.
  intros Hrun.
  destruct (correctly_signed t) eqn:Hs.
  2: { rewrite (get_current_user_unsigned t st now s Hs) in Hrun.
       discriminate. }
  split; [done|].
  destruct (validate_claims_spec (claims_of t) now)
    as [[_ Ha]|[(cls & Hv) _]].
  2: { rewrite (get_current_user_refused_claims t cls st now s Hs Hv) in Hrun.
       discriminate. }
  split; [done|].
  rewrite (get_current_user_valid_run t st now s Hs Ha) in Hrun.
  cbv zeta in Hrun. unfold dict_get in Hrun.
  destruct (claims_of t !! "sub") as [sub|] eqn:Hsub; simpl in Hrun;
    [|discriminate].
  destruct (truthy sub) eqn:Ht; [|discriminate].
  destruct (key_accepted ("user:" +:+ py_str sub)); [|discriminate].
  destruct (st !! ("user:" +:+ py_str sub)) as [r|] eqn:Hst; simpl in Hrun;
    [|discriminate].
  unfold dict_truthy in Hrun.
  destruct (bool_decide (r = ∅)) eqn:Hr; simpl in Hrun; [discriminate|].
  apply bool_decide_eq_false in Hr.
  injection Hrun as -> <-.
  exists sub. by repeat split.
Qed.

(** X2.  Authentication is sound: when [get_current_user] returns a record,
    the token is correctly signed, its integer [exp], if it has one, lies
    ahead of the clock, its [sub] is true, and the record is the non-empty
    one the store holds now under ["user:" + str(sub)]; that key was read
    once. *)
Theorem authentication_is_sound (t : jwt) (u : pydict)
    (st : memcached) (now : Z) (s s' : state) :
  run (get_current_user t) st now s = (Returns u, s') ->
  correctly_signed t = true
  /\ (forall exp, claims_of t !! "exp" = Some (PInt exp) ->
        now < exp * usec_per_sec)
  /\ exists sub : pyval,
       claims_of t !! "sub" = Some sub
       /\ truthy sub = true
       /\ st !! ("user:" +:+ py_str sub) = Some u
       /\ u <> ∅
       /\ s' = looked_up s ("user:" +:+ py_str sub) (Some u).
Proof.
  intros Hrun.
  destruct (get_current_user_returns_inv t u st now s s' Hrun)
    as (Hs & Ha & Hrest).
  split; [done|]. split; [|done].
  intros exp He. by apply (claims_acceptable_exp _ _ _ Ha He).
Qed.

End AuthenticateMore.

Section AuthenticateEffects.
Context `{Primitives}.

(** Every way [get_current_user] can end. *)
Lemma get_current_user_cases (t : jwt) st now s :
  (exists detail, run (get_current_user t) st now s
                  = (Raises (HTTPException 401 detail), s))
  \/ run (get_current_user t) st now s = (Raises MemcachedKeyError, s)
  \/ exists key,
       (run (get_current_user t) st now s).2 = looked_up s key (st !! key)
       /\ ((run (get_current_user t) st now s).1
             = Raises (HTTPException 404 "User not found")
           \/ exists u, (run (get_current_user t) st now s).1 = Returns u).
Proof.
  destruct (correctly_signed t) eqn:Hs.
  2: { left. eexists. by apply get_current_user_unsigned. }
  destruct (validate_claims_spec (claims_of t) now)
    as [[_ Ha]|[(cls & Hv) _]].
  2: { left. eexists. by apply (get_current_user_refused_claims t cls). }
  rewrite (get_current_user_valid_run t st now s Hs Ha). cbv zeta.
  destruct (truthy _); [|left; by eexists].
  destruct (key_accepted _); [|by right; left].
  right. right. eexists. split; [reflexivity|].
  destruct (opt_truthy _); [right; by eexists|by left].
Qed.

Lemma store_reads_looked_up (s : state) (key : string) (user : option pydict) :
  store_reads (log (looked_up s key user)) = store_reads (log s) ++ [key].
Proof. unfold looked_up, store_reads. cbn [log]. by rewrite omap_app. Qed.

(** X3.  Whatever the token, [get_current_user] leaves every dictionary
    object as it was, never calls the password primitive, and reads the
    store at most once. *)
Theorem authentication_effects (t : jwt) (st : memcached) (now : Z)
    (s : state) :
  let s' := (run (get_current_user t) st now s).2 in
  heap s' = heap s
  /\ verify_calls (log s') = verify_calls (log s)
  /\ (store_reads (log s') = store_reads (log s)
      \/ exists key, store_reads (log s') = store_reads (log s) ++ [key]).
Proof.
  intros s'. subst s'.
  destruct (get_current_user_cases t st now s)
    as [[detail ->]|[->|(key & -> & _)]]; cbn [snd].
  - by repeat split; try left.
  - by repeat split; try left.
  - split; [done|]. split; [by rewrite verify_calls_looked_up|].
    right. exists key. by rewrite store_reads_looked_up.
Qed.

(** X4.  An empty dictionary stored under the subject's key is no
    principal: a valid token for that subject -- correctly signed, with
    claims [jwt.decode] accepts at the time of the request -- is answered
    404, as if the key were missing. *)
Theorem empty_record_is_no_principal (t : jwt) (name : string)
    (st : memcached) (now : Z) (s : state) :
  correctly_signed t = true ->
  claims_acceptable (claims_of t) now = true ->
  claims_of t !! "sub" = Some (PStr name) ->
  name <> "" ->
  st !! ("user:" +:+ name) = Some ∅ ->
  (run (get_current_user t) st now s).1
    = Raises (HTTPException 404 "User not found").
Proof.
  intros Hs Ha Hsub Hn Hst.
  by rewrite (get_current_user_hollow t name st now s Hs Ha Hsub Hn Hst).
Qed.

(** X5.  The plain protected route answers 200, 401, 404 or 500 and never
    403; a request that fails authentication gets the failure of
    [get_current_user] unchanged. *)
Theorem protected_route_statuses (t : jwt) (st : memcached)
    (now : Z) (s : state) :
  http_status (run (GET_protected t) st now s).1 ∈ [200; 401; 404; 500]
  /\ forall x, (run (get_current_user t) st now s).1 = Raises x ->
               run (GET_protected t) st now s = run (get_current_user t) st now s.
Proof.
  split.
  - unfold GET_protected, run, bind.
    destruct (get_current_user_cases t st now s)
      as [[detail Hr]|[Hr|(key & Hst & [Hr|[u Hr]])]]; unfold run in *.
    + rewrite Hr. simpl. set_solver.
    + rewrite Hr. simpl. set_solver.
    + destruct (get_current_user t _ s) as [o s1]. simpl in Hr. subst o.
      simpl. set_solver.
    + destruct (get_current_user t _ s) as [o s1]. simpl in Hr. subst o.
      unfold protected_route, bind, dict_index.
      destruct (u !! "full_name"); simpl; set_solver.
  - intros x Hx. unfold GET_protected, run, bind in *.
    destruct (get_current_user t _ s) as [o s1]. simpl in Hx. by subst o.
Qed.

End AuthenticateEffects.

Lemma unsigned_token_is_rejected_witness :
  @correctly_signed Demo.primitives Demo.foreign_token = false
  /\ run (@get_current_user Demo.primitives Demo.foreign_token) Demo.users Demo.noon idle
     = (Raises (HTTPException 401 "Invalid token"), idle).
Proof.
  assert (@correctly_signed Demo.primitives Demo.foreign_token = false) as Hs
    by (vm_compute; reflexivity).
  split; [exact Hs|].
  exact (proj1 (@unsigned_token_is_rejected Demo.primitives Demo.foreign_token
                  Demo.users Demo.noon idle Hs)).
Defined.

Lemma authentication_is_sound_witness :
  run (@get_current_user Demo.primitives Demo.john_token) Demo.users Demo.noon idle
    = (Returns Demo.john, looked_up idle "user:john" (Some Demo.john))
  /\ @correctly_signed Demo.primitives Demo.john_token = true.
Proof.
  assert (run (@get_current_user Demo.primitives Demo.john_token) Demo.users
            Demo.noon idle
          = (Returns Demo.john, looked_up idle "user:john" (Some Demo.john)))
    as Hrun by (vm_compute; reflexivity).
  split; [exact Hrun|].
  exact (proj1 (@authentication_is_sound Demo.primitives Demo.john_token
                  Demo.john Demo.users Demo.noon idle _ Hrun)).
Defined.

Lemma empty_record_is_no_principal_witness :
  (@correctly_signed Demo.primitives Demo.john_token = true
   /\ @claims_acceptable Demo.primitives (claims_of Demo.john_token) Demo.noon
      = true
   /\ claims_of Demo.john_token !! "sub" = Some (PStr "john")
   /\ "john" <> ""
   /\ Demo.hollow_store !! ("user:" +:+ "john") = Some ∅)
  /\ (run (@get_current_user Demo.primitives Demo.john_token) Demo.hollow_store
        Demo.noon idle).1
     = Raises (HTTPException 404 "User not found").
Proof.
  assert (@correctly_signed Demo.primitives Demo.john_token = true) as H1
    by (vm_compute; reflexivity).
  assert (@claims_acceptable Demo.primitives (claims_of Demo.john_token)
            Demo.noon = true) as H2 by (vm_compute; reflexivity).
  assert (claims_of Demo.john_token !! "sub" = Some (PStr "john")) as H4
    by (vm_compute; reflexivity).
  assert ("john" <> "") as H5 by discriminate.
  assert (Demo.hollow_store !! ("user:" +:+ "john") = Some ∅) as H6
    by (vm_compute; reflexivity).
  split; [by repeat split|].
  exact (@empty_record_is_no_principal Demo.primitives Demo.john_token
           "john" Demo.hollow_store Demo.noon idle H1 H2 H4 H5 H6).
Defined.

(** ** Issuance, on every dictionary *)

Section IssueMore.
Context `{Primitives}.

Lemma json_payload_lookup (p : pydict) (k : string) :
  json_payload p !! k
  = if bool_decide (k ∈ time_claims) then numeric_date <$> p !! k else p !! k.
Proof.
  unfold json_payload, time_claims. cbn [foldr].
  destruct (decide (k = "exp")) as [->|Hexp].
  { rewrite lookup_alter_eq, !lookup_alter_ne by done. reflexivity. }
  rewrite (lookup_alter_ne _ _ "exp") by done.
  destruct (decide (k = "iat")) as [->|Hiat].
  { rewrite lookup_alter_eq, !lookup_alter_ne by done. reflexivity. }
  rewrite (lookup_alter_ne _ _ "iat") by done.
  destruct (decide (k = "nbf")) as [->|Hnbf].
  { rewrite lookup_alter_eq. reflexivity. }
  rewrite (lookup_alter_ne _ _ "nbf") by done.
  rewrite bool_decide_false; [done|].
  rewrite !elem_of_cons, elem_of_nil. by intros [?|[?|[?|[]]]].
Qed.

Lemma jwt_encode_returns (p : pydict) (tok : jwt) :
  jwt_encode p SECRET_KEY ALGORITHM = Returns tok ->
  tok = @Jws ALGORITHM (json_payload p)
          (hmac_sign SECRET_KEY ALGORITHM (json_payload p)).
Proof.
  unfold jwt_encode. destruct (json_serializable _); [|discriminate].
  by intros [= <-].
Qed.

(** The token [create_access_token] returns, read back. *)
Lemma create_access_token_returns (data : nat) (delta : option Z) (d : pydict)
    (tok : jwt) st now s :
  heap s !! data = Some d ->
  (run (create_access_token data delta) st now s).1 = Returns tok ->
  correctly_signed tok = true
  /\ claims_of tok !! "exp"
     = Some (PInt ((now + delta_or_default delta) / usec_per_sec))
  /\ forall k, k ∉ time_claims -> claims_of tok !! k = d !! k.
Proof.
  intros Hd Hrun. rewrite create_access_token_run in Hrun.
  cbn [fst] in Hrun. rewrite Hd in Hrun. cbn [default from_option id] in Hrun.
  apply jwt_encode_returns in Hrun. subst tok.
  split; [apply correctly_signed_own|]. cbn [claims_of].
  split.
  - rewrite json_payload_lookup.
    rewrite bool_decide_true by (unfold time_claims; set_solver).
    unfold dict_update. by rewrite lookup_union_l', lookup_singleton_eq.
  - intros k Hk. rewrite json_payload_lookup.
    rewrite bool_decide_false by done.
    unfold dict_update. rewrite lookup_union_r; [done|].
    apply lookup_singleton_ne. intros <-. apply Hk.
    unfold time_claims. set_solver.
Qed.

(** X6.  Whatever dictionary the caller passes, a token that
    [create_access_token] returns is signed under the engine's secret, its
    [exp] is the clock plus the duration in whole seconds -- the caller's
    duration, or two minutes when none or a zero one is given -- even if the
    dictionary came with an [exp] of its own, and every claim other than
    [exp], [iat] and [nbf] is the caller's. *)
Theorem issued_token_claims (data : nat) (delta : option Z) (d : pydict)
    (tok : jwt) (st : memcached) (now : Z) (s : state) :
  heap s !! data = Some d ->
  (run (create_access_token data delta) st now s).1 = Returns tok ->
  let ttl := match delta with
             | Some dt => if dt =? 0 then 2 * 60 * usec_per_sec else dt
             | None => 2 * 60 * usec_per_sec
             end in
  correctly_signed tok = true
  /\ claims_of tok !! "exp" = Some (PInt ((now + ttl) / usec_per_sec))
  /\ forall k, k ∉ ["exp"; "iat"; "nbf"] -> claims_of tok !! k = d !! k.
Proof.
  intros Hd Hrun ttl.
  exact (create_access_token_returns data delta d tok st now s Hd Hrun).
Qed.

End IssueMore.

Lemma issued_token_claims_witness :
  let d : pydict := {["sub" := PStr "john"; "exp" := PInt 0; "role" := PStr "x"]} in
  let s := State [d] [] in
  let tok := Demo.forge SECRET_KEY
               {["sub" := PStr "john"; "exp" := PInt 1700000000; "role" := PStr "x"]} in
  (heap s !! 0%nat = Some d
   /\ (run (@create_access_token Demo.primitives 0 (Some 0)) Demo.users
         (Demo.noon - 120 * usec_per_sec) s).1 = Returns tok)
  /\ claims_of tok !! "exp"
     = Some (PInt ((Demo.noon - 120 * usec_per_sec + 2 * 60 * usec_per_sec)
                   / usec_per_sec)).
Proof.
  intros d s tok.
  assert (heap s !! 0%nat = Some d) as Hd by reflexivity.
  assert ((run (@create_access_token Demo.primitives 0 (Some 0)) Demo.users
             (Demo.noon - 120 * usec_per_sec) s).1 = Returns tok) as Hrun
    by (vm_compute; reflexivity).
  split; [by split|].
  exact (proj1 (proj2 (@issued_token_claims Demo.primitives 0 (Some 0) d tok
                         Demo.users (Demo.noon - 120 * usec_per_sec) s
                         Hd Hrun))).
Defined.

(** ** Login, on every request *)

Section LoginMore.
Context `{Primitives}.

(** X7.  No token without the password: when [login] returns, the store
    holds a non-empty record under the username and the password primitive
    accepted the password against the record's hash; the token is a bearer
    token signed under the engine's secret, its [sub] is the record's
    [username] field (not the submitted name) and its [exp] lies two minutes
    ahead, in whole seconds. *)
Theorem login_is_sound (form : LoginRequest) (tk : Token)
    (st : memcached) (now : Z) (s s' : state) :
  run (login form) st now s = (Returns tk, s') ->
  exists u : pydict,
    st !! ("user:" +:+ username form) = Some u
    /\ u <> ∅
    /\ pwd_verify (password form) (default (PStr "") (u !! "hashed_password"))
       = Some true
    /\ token_type tk = "bearer"
    /\ correctly_signed (access_token tk) = true
    /\ claims_of (access_token tk) !! "sub" = u !! "username"
    /\ claims_of (access_token tk) !! "exp"
       = Some (PInt ((now + 2 * 60 * usec_per_sec) / usec_per_sec)).
Proof.
  rewrite login_run. cbv zeta.
  destruct (key_accepted _); [|discriminate].
  destruct (st !! ("user:" +:+ username form)) as [u|] eqn:Hst;
    cbn [opt_truthy the_dict default from_option id]; [|discriminate].
  unfold dict_truthy. destruct (bool_decide (u = ∅)) eqn:Hu; cbn [negb];
    [discriminate|].
  apply bool_decide_eq_false in Hu. unfold dict_get_or.
  destruct (pwd_verify _ _) as [[|]|] eqn:Hpw; try discriminate.
  destruct (u !! "username") as [sub|] eqn:Hsub; [|discriminate].
  destruct (jwt_encode _ _ _) as [tok|x] eqn:Henc; [|discriminate].
  intros [= <- <-]. apply jwt_encode_returns in Henc. subst tok.
  exists u. cbn [access_token token_type claims_of].
  split; [done|]. split; [done|]. split; [done|]. split; [done|].
  split; [apply correctly_signed_own|].
  rewrite !json_payload_lookup.
  rewrite bool_decide_false
    by (unfold time_claims; rewrite !elem_of_cons, elem_of_nil;
        by intros [?|[?|[?|[]]]]).
  rewrite bool_decide_true by (unfold time_claims; set_solver).
  unfold dict_update.
  rewrite lookup_union_r by done.
  by rewrite lookup_union_l', !lookup_singleton_eq.
Qed.

(** X8.  However it ends, [login] reads the store at most once: exactly
    once, under ["user:" + username], when the store client accepts that
    key, and not at all when it refuses it (a blank or a control character
    in it, more than 250 bytes) -- then the client's exception ends the
    request before anything is read, printed or verified.  No dictionary
    object that existed before is changed. *)
Theorem login_reads_store_once (form : LoginRequest)
    (st : memcached) (now : Z) (s : state) :
  let key := "user:" +:+ username form in
  let s' := (run (login form) st now s).2 in
  store_reads (log s')
  = store_reads (log s) ++ (if key_accepted key then [key] else [])
  /\ take (length (heap s)) (heap s') = heap s
  /\ (key_accepted key = false ->
      run (login form) st now s = (Raises MemcachedKeyError, s)).
Proof.
  intros key s'. subst s'. rewrite login_run. cbv zeta. fold key.
  destruct (key_accepted key).
  2: { cbn [snd]. rewrite app_nil_r. split; [done|]. split; [|done].
       apply firstn_all. }
  set (s1 := looked_up s key (st !! key)).
  assert (store_reads (log s1) = store_reads (log s) ++ [key]) as H1
    by apply store_reads_looked_up.
  assert (forall ev, store_reads (log s1 ++ [PwdVerify ev.1 ev.2])
                     = store_reads (log s) ++ [key]) as H2.
  { intros ev. unfold store_reads at 1. rewrite omap_app. cbn.
    rewrite app_nil_r. exact H1. }
  assert (take (length (heap s)) (heap s1) = heap s) as H3.
  { unfold s1, looked_up. cbn [heap]. apply firstn_all. }
  split; [|split; [|discriminate]].
  - destruct (opt_truthy (st !! key)); [|done].
    destruct (pwd_verify _ _) as [[|]|]; cbn [snd log];
      try apply (H2 (_, _)).
    destruct (_ !! "username"); cbn [snd log]; apply (H2 (_, _)).
  - destruct (opt_truthy (st !! key)); [|done].
    destruct (pwd_verify _ _) as [[|]|]; cbn [snd heap]; try exact H3.
    destruct (_ !! "username"); cbn [snd heap]; [|exact H3].
    by rewrite take_app_length.
Qed.

(** X9.  [login] answers 200, 401 or 500, nothing else: its one
    [HTTPException] is the generic 401, and an exception of the password
    primitive, of the [username] lookup or of the encoder is not caught. *)
Theorem login_statuses (form : LoginRequest) (st : memcached)
    (now : Z) (s : state) :
  http_status (run (login form) st now s).1 ∈ [200; 401; 500]
  /\ forall c d, (run (login form) st now s).1 = Raises (HTTPException c d) ->
                 c = 401 /\ d = "Incorrect username or password".
Proof.
  rewrite login_run. cbv zeta.
  destruct (key_accepted _); [|split; [simpl; set_solver|discriminate]].
  destruct (opt_truthy _); [|split; [set_solver|by intros c d [= <- <-]]].
  destruct (pwd_verify _ _) as [[|]|]; cbn [fst].
  - destruct (_ !! "username"); cbn [fst].
    + unfold jwt_encode. destruct (json_serializable _); simpl.
      * split; [set_solver|discriminate].
      * split; [set_solver|discriminate].
    + split; [simpl; set_solver|discriminate].
  - split; [simpl; set_solver|by intros c d [= <- <-]].
  - split; [simpl; set_solver|discriminate].
Qed.

(** X10.  A stored record without a [username] field makes a login with
    the right password fail on [user["username"]]: a [KeyError], status
    500, after the password was verified, and no token is made. *)
Theorem login_record_without_username (form : LoginRequest) (u : pydict)
    (st : memcached) (now : Z) (s : state) :
  st !! ("user:" +:+ username form) = Some u ->
  u <> ∅ ->
  u !! "username" = None ->
  pwd_verify (password form) (dict_get_or u "hashed_password" (PStr ""))
    = Some true ->
  (run (login form) st now s).1 = Raises (KeyError "username")
  /\ http_status (run (login form) st now s).1 = 500
  /\ heap (run (login form) st now s).2 = heap s.
Proof.
  intros Hst Hne Hun Hpw.
  rewrite login_run, (lookup_memcached_accepted _ _ _ Hst), Hst.
  cbn [opt_truthy the_dict default from_option id].
  unfold dict_truthy. rewrite bool_decide_false by done. cbn [negb].
  by rewrite Hpw, Hun.
Qed.

(** X11.  When the password primitive raises instead of answering (a
    stored hash it cannot read), [login] does not turn that into the
    generic 401: the exception goes through, status 500. *)
Theorem login_verifier_failure (form : LoginRequest) (u : pydict)
    (st : memcached) (now : Z) (s : state) :
  st !! ("user:" +:+ username form) = Some u ->
  u <> ∅ ->
  pwd_verify (password form) (dict_get_or u "hashed_password" (PStr ""))
    = None ->
  (run (login form) st now s).1 = Raises PasslibError
  /\ http_status (run (login form) st now s).1 = 500.
Proof.
  intros Hst Hne Hpw.
  rewrite login_run, (lookup_memcached_accepted _ _ _ Hst), Hst.
  cbn [opt_truthy the_dict default from_option id].
  unfold dict_truthy. rewrite bool_decide_false by done. cbn [negb].
  by rewrite Hpw.
Qed.

(** X12.  The lifetime of a login: for a non-empty username whose record
    carries it and whose hash accepts the password, the token [login]
    issues at [now] authenticates as that record at every instant up to 119
    seconds later, and is answered 401 "Token expired" at every instant from
    120 seconds later on. *)
Theorem token_lifetime (form : LoginRequest) (u : pydict)
    (st : memcached) (now : Z) (s : state) :
  username form <> "" ->
  st !! ("user:" +:+ username form) = Some u ->
  u !! "username" = Some (PStr (username form)) ->
  pwd_verify (password form) (dict_get_or u "hashed_password" (PStr ""))
    = Some true ->
  exists tok : jwt,
    (run (login form) st now s).1
      = Returns {| access_token := tok; token_type := "bearer" |}
    /\ (forall later s2, later <= now + 119 * usec_per_sec ->
          (run (get_current_user tok) st later s2).1 = Returns u)
    /\ (forall later s2, now + 120 * usec_per_sec <= later ->
          (run (get_current_user tok) st later s2).1
          = Raises (HTTPException 401 "Token expired")).
Proof.
  intros Hname Hst Hun Hpw.
  assert (u <> ∅) as Hne.
  { intros ->. by rewrite lookup_empty in Hun. }
  rewrite login_run, (lookup_memcached_accepted _ _ _ Hst), Hst.
  cbn [opt_truthy the_dict default from_option id].
  unfold dict_truthy. rewrite bool_decide_false by done. cbn [negb].
  rewrite Hpw, Hun. cbv zeta. rewrite jwt_encode_issued. cbn [fst].
  set (exp := (now + delta_or_default None) / usec_per_sec).
  assert (now + 119 * usec_per_sec < exp * usec_per_sec
          /\ exp * usec_per_sec <= now + 120 * usec_per_sec) as [Hlo Hhi].
  { unfold exp, delta_or_default, timedelta_minutes,
      ACCESS_TOKEN_EXPIRE_MINUTES, usec_per_sec.
    pose proof (Z.mul_div_le (now + 2 * 60 * 1000000) 1000000).
    pose proof (Z.mul_succ_div_gt (now + 2 * 60 * 1000000) 1000000).
    lia. }
  eexists. split; [reflexivity|]. split.
  - intros later s2 Hl.
    rewrite (get_current_user_found _ (username form) u); try done.
    + apply correctly_signed_own.
    + cbn [claims_of]. apply issued_claims_acceptable. lia.
  - intros later s2 Hl.
    rewrite (get_current_user_expired _ (PInt exp) exp); try done.
    + apply correctly_signed_own.
    + lia.
Qed.

End LoginMore.

Lemma login_is_sound_witness :
  let tk := {| access_token :=
                 Demo.forge SECRET_KEY
                   {[ "sub" := PStr "john"; "exp" := PInt 1700000120 ]};
               token_type := "bearer" |} in
  let s1 := (run (@login Demo.primitives Demo.john_form) Demo.users Demo.noon idle).2 in
  run (@login Demo.primitives Demo.john_form) Demo.users Demo.noon idle
    = (Returns tk, s1)
  /\ exists u : pydict,
       Demo.users !! ("user:" +:+ username Demo.john_form) = Some u
       /\ u <> ∅
       /\ @pwd_verify Demo.primitives (password Demo.john_form)
            (default (PStr "") (u !! "hashed_password")) = Some true
       /\ token_type tk = "bearer"
       /\ @correctly_signed Demo.primitives (access_token tk) = true
       /\ claims_of (access_token tk) !! "sub" = u !! "username"
       /\ claims_of (access_token tk) !! "exp"
          = Some (PInt ((Demo.noon + 2 * 60 * usec_per_sec) / usec_per_sec)).
Proof.
  intros tk s1.
  assert (run (@login Demo.primitives Demo.john_form) Demo.users Demo.noon idle
          = (Returns tk, s1)) as Hrun by (vm_compute; reflexivity).
  split; [exact Hrun|].
  exact (@login_is_sound Demo.primitives Demo.john_form tk Demo.users
           Demo.noon idle s1 Hrun).
Defined.

Lemma login_record_without_username_witness :
  let u : pydict := {[ "full_name" := PStr "Sam";
                       "hashed_password" := PStr (Demo.scheme +:+ "pw") ]} in
  (Demo.nameless_store !! ("user:" +:+ username Demo.sam_form) = Some u
   /\ u <> ∅
   /\ u !! "username" = None
   /\ @pwd_verify Demo.primitives (password Demo.sam_form)
        (dict_get_or u "hashed_password" (PStr "")) = Some true)
  /\ (run (@login Demo.primitives Demo.sam_form) Demo.nameless_store Demo.noon idle).1
     = Raises (KeyError "username").
Proof.
  intros u.
  assert (Demo.nameless_store !! ("user:" +:+ username Demo.sam_form) = Some u)
    as H1 by (vm_compute; reflexivity).
  assert (u <> ∅) as H2 by (intros Hu; by apply (f_equal (lookup "full_name")) in Hu).
  assert (u !! "username" = None) as H3 by (vm_compute; reflexivity).
  assert (@pwd_verify Demo.primitives (password Demo.sam_form)
            (dict_get_or u "hashed_password" (PStr "")) = Some true) as H4
    by (vm_compute; reflexivity).
  split; [by repeat split|].
  exact (proj1 (@login_record_without_username Demo.primitives Demo.sam_form u
                  Demo.nameless_store Demo.noon idle H1 H2 H3 H4)).
Defined.

Lemma login_verifier_failure_witness :
  let u : pydict := {[ "username" := PStr "pat"; "full_name" := PStr "Pat" ]} in
  (Demo.hashless_store !! ("user:" +:+ username Demo.pat_form) = Some u
   /\ u <> ∅
   /\ @pwd_verify Demo.primitives (password Demo.pat_form)
        (dict_get_or u "hashed_password" (PStr "")) = None)
  /\ (run (@login Demo.primitives Demo.pat_form) Demo.hashless_store Demo.noon idle).1
     = Raises PasslibError.
Proof.
  intros u.
  assert (Demo.hashless_store !! ("user:" +:+ username Demo.pat_form) = Some u)
    as H1 by (vm_compute; reflexivity).
  assert (u <> ∅) as H2 by (intros Hu; by apply (f_equal (lookup "full_name")) in Hu).
  assert (@pwd_verify Demo.primitives (password Demo.pat_form)
            (dict_get_or u "hashed_password" (PStr "")) = None) as H3
    by (vm_compute; reflexivity).
  split; [by repeat split|].
  exact (proj1 (@login_verifier_failure Demo.primitives Demo.pat_form u
                  Demo.hashless_store Demo.noon idle H1 H2 H3)).
Defined.

Lemma token_lifetime_witness :
  (username Demo.john_form <> ""
   /\ Demo.users !! ("user:" +:+ username Demo.john_form) = Some Demo.john
   /\ Demo.john !! "username" = Some (PStr (username Demo.john_form))
   /\ @pwd_verify Demo.primitives (password Demo.john_form)
        (dict_get_or Demo.john "hashed_password" (PStr "")) = Some true)
  /\ exists tok : jwt,
       (run (@login Demo.primitives Demo.john_form) Demo.users Demo.noon idle).1
         = Returns {| access_token := tok; token_type := "bearer" |}
       /\ (forall later s2, later <= Demo.noon + 119 * usec_per_sec ->
             (run (@get_current_user Demo.primitives tok) Demo.users later s2).1
             = Returns Demo.john)
       /\ (forall later s2, Demo.noon + 120 * usec_per_sec <= later ->
             (run (@get_current_user Demo.primitives tok) Demo.users later s2).1
             = Raises (HTTPException 401 "Token expired")).
Proof.
  assert (username Demo.john_form <> "") as H1 by discriminate.
  assert (Demo.users !! ("user:" +:+ username Demo.john_form) = Some Demo.john)
    as H2 by (vm_compute; reflexivity).
  assert (Demo.john !! "username" = Some (PStr (username Demo.john_form)))
    as H3 by (vm_compute; reflexivity).
  assert (@pwd_verify Demo.primitives (password Demo.john_form)
            (dict_get_or Demo.john "hashed_password" (PStr "")) = Some true)
    as H4 by (vm_compute; reflexivity).
  split; [by repeat split|].
  exact (@token_lifetime Demo.primitives Demo.john_form Demo.john Demo.users
           Demo.noon idle H1 H2 H3 H4).
Defined.

(** ** Authorization, end to end *)

Section AuthorizeMore.
Context `{Primitives}.

(** X13.  The admin route is sound end to end: a body comes back only for
    a correctly signed token whose subject's record, as the store holds it
    now, has a true [admin] entry; and 403 is answered only to a caller
    that authenticated, for a record whose [admin] is false or missing. *)
Theorem admin_route_is_sound (t : jwt) (st : memcached) (now : Z)
    (s : state) :
  (forall body, (run (GET_protected2 t) st now s).1 = Returns body ->
     correctly_signed t = true
     /\ exists sub u, claims_of t !! "sub" = Some sub
          /\ st !! ("user:" +:+ py_str sub) = Some u
          /\ truthy (dict_get u "admin") = true)
  /\ ((run (GET_protected2 t) st now s).1 = Raises admin_required ->
      correctly_signed t = true
      /\ exists sub u, claims_of t !! "sub" = Some sub
           /\ st !! ("user:" +:+ py_str sub) = Some u
           /\ (run (get_current_user t) st now s).1 = Returns u
           /\ truthy (dict_get u "admin") = false).
Proof.
  unfold GET_protected2, run, bind.
  destruct (get_current_user t {| store := st; clock := now |} s)
    as [[u|x] s1] eqn:Hauth.
  2: { split; [discriminate|].
       destruct (get_current_user_cases t st now s)
         as [[detail Hr]|[Hr|(key & _ & [Hr|[u Hr]])]]; unfold run in Hr;
         rewrite Hauth in Hr; simpl in Hr; try discriminate;
         injection Hr as ->; discriminate. }
  destruct (get_current_user_returns_inv t u st now s s1 Hauth)
    as (Hs & _ & sub & Hsub & _ & Hst & _ & _).
  unfold protected_admin_route.
  destruct (truthy (dict_get u "admin")) eqn:Hadm; cbn [negb].
  - split.
    + intros body _. split; [done|]. by exists sub, u.
    + unfold bind, dict_index. destruct (u !! "full_name"); discriminate.
  - split; [discriminate|].
    intros _. split; [done|]. by exists sub, u.
Qed.

(** X14.  The admin check comes before the name is read: for a record
    without [full_name] the admin route answers 403 when [admin] is false or
    missing and fails with a [KeyError] (500) when it is true; the plain
    route always fails with that [KeyError]. *)
Theorem denial_precedes_name_lookup (u : pydict) (st : memcached)
    (now : Z) (s : state) :
  u !! "full_name" = None ->
  (run (protected_admin_route u) st now s).1
    = (if truthy (dict_get u "admin")
       then Raises (KeyError "full_name")
       else Raises (HTTPException 403 "Admin access required"))
  /\ (run (protected_route u) st now s).1 = Raises (KeyError "full_name").
Proof.
  intros Hn. unfold run, protected_admin_route, protected_route, bind,
    dict_index. rewrite Hn.
  by destruct (truthy (dict_get u "admin")).
Qed.

(** X15.  The gate tests the truth value of [admin], not the boolean: for a
    record with a [full_name], the admin route answers 200 exactly when the
    [admin] entry is a true object -- [True], a non-zero integer, a
    non-empty text, the text "false" included -- and 403 otherwise. *)
Theorem admin_gate_tests_truth (u : pydict) (full_name : pyval)
    (st : memcached) (now : Z) (s : state) :
  u !! "full_name" = Some full_name ->
  http_status (run (protected_admin_route u) st now s).1
  = match u !! "admin" with
    | None | Some PNone | Some (PBool false) | Some (PInt 0) => 403
    | Some (PStr a) => if String.eqb a "" then 403 else 200
    | Some _ => 200
    end.
Proof.
  intros Hn. unfold run, protected_admin_route, bind, dict_index, dict_get.
  rewrite Hn.
  destruct (u !! "admin") as [[|[|]|[|p|p]|a|us]|]; simpl; try reflexivity.
  by destruct (String.eqb a "").
Qed.

End AuthorizeMore.

Lemma denial_precedes_name_lookup_witness :
  Demo.faceless !! "full_name" = None
  /\ (run (@protected_admin_route Demo.primitives Demo.faceless) Demo.users
        Demo.noon idle).1
     = Raises (KeyError "full_name").
Proof.
  assert (Demo.faceless !! "full_name" = None) as Hn by (vm_compute; reflexivity).
  split; [exact Hn|].
  exact (proj1 (@denial_precedes_name_lookup Demo.primitives Demo.faceless
                  Demo.users Demo.noon idle Hn)).
Defined.

Lemma admin_gate_tests_truth_witness :
  Demo.wordy !! "full_name" = Some (PStr "Lee")
  /\ http_status (run (@protected_admin_route Demo.primitives Demo.wordy)
                    Demo.users Demo.noon idle).1 = 200.
Proof.
  assert (Demo.wordy !! "full_name" = Some (PStr "Lee")) as Hn
    by (vm_compute; reflexivity).
  split; [exact Hn|].
  exact (@admin_gate_tests_truth Demo.primitives Demo.wordy (PStr "Lee")
           Demo.users Demo.noon idle Hn).
Defined.

Lemma admin_route_is_sound_witness :
  (run (@GET_protected2 Demo.primitives Demo.jane_token) Demo.users Demo.noon idle).1
    = Raises admin_required
  /\ @correctly_signed Demo.primitives Demo.jane_token = true.
Proof.
  assert ((run (@GET_protected2 Demo.primitives Demo.jane_token) Demo.users
             Demo.noon idle).1 = Raises admin_required) as Hr
    by (vm_compute; reflexivity).
  split; [exact Hr|].
  exact (proj1 (proj2 (@admin_route_is_sound Demo.primitives Demo.jane_token
                         Demo.users Demo.noon idle) Hr)).
Defined.

(** ** The wait for the store *)

Section WaitFacts.
Context {D : Type} (sleep_ok : D -> bool).
Implicit Types (server : nat -> Preload.probe) (delay : D).

Lemma wait_loop_ready server addr delay (k : nat) :
  forall i n : nat,
    (k < n)%nat ->
    k = 0%nat \/ sleep_ok delay = true ->
    Preload.healthy (server (i + k)%nat) = true ->
    (forall j, (j < k)%nat -> Preload.healthy (server (i + j)%nat) = false) ->
    Preload.wait_loop sleep_ok server addr delay i n
    = (Preload.Client addr, replicate k delay).
Proof.
  induction k as [|k IH]; intros i n Hlt Hsl Hk Hbefore.
  - destruct n as [|n]; [lia|]. simpl.
    rewrite Nat.add_0_r in Hk. by rewrite Hk.
  - destruct n as [|n]; [lia|]. simpl.
    destruct Hsl as [Hz|Hsl]; [discriminate|].
    specialize (Hbefore 0%nat) as H0. rewrite Nat.add_0_r in H0.
    rewrite H0 by lia. rewrite Hsl.
    rewrite (IH (S i) n); [done|lia|by right| |].
    + by replace (S i + k)%nat with (i + S k)%nat by lia.
    + intros j Hj. replace (S i + j)%nat with (i + S j)%nat by lia.
      apply Hbefore. lia.
Qed.

Lemma wait_loop_gives_up server addr delay (n : nat) :
  forall i : nat,
    n = 0%nat \/ sleep_ok delay = true ->
    (forall j, (j < n)%nat -> Preload.healthy (server (i + j)%nat) = false) ->
    Preload.wait_loop sleep_ok server addr delay i n
    = (Preload.RuntimeError ("Memcached not ready at " +:+ addr),
       replicate n delay).
Proof.
  induction n as [|n IH]; intros i Hsl Hall; [done|]. simpl.
  destruct Hsl as [Hz|Hsl]; [discriminate|].
  specialize (Hall 0%nat) as H0. rewrite Nat.add_0_r in H0.
  rewrite H0 by lia. rewrite Hsl.
  rewrite (IH (S i)); [done|by right|].
  intros j Hj. replace (S i + j)%nat with (i + S j)%nat by lia.
  apply Hall. lia.
Qed.

Lemma wait_loop_client_inv server addr delay (n : nat) :
  forall (i : nat) (a : string) (sleeps : list D),
    Preload.wait_loop sleep_ok server addr delay i n
      = (Preload.Client a, sleeps) ->
    a = addr
    /\ (length sleeps < n)%nat
    /\ sleeps = replicate (length sleeps) delay
    /\ Preload.healthy (server (i + length sleeps)%nat) = true
    /\ forall j, (j < length sleeps)%nat ->
                 Preload.healthy (server (i + j)%nat) = false.
Proof.
  induction n as [|n IH]; intros i a sleeps Hrun; [discriminate|].
  simpl in Hrun.
  destruct (Preload.healthy (server i)) eqn:Hi.
  - injection Hrun as <- <-. simpl. rewrite Nat.add_0_r.
    repeat split; [lia|done|]. intros j Hj. lia.
  - destruct (sleep_ok delay); [|discriminate].
    destruct (Preload.wait_loop sleep_ok server addr delay (S i) n)
      as [r sl] eqn:Hrec.
    injection Hrun as -> <-.
    destruct (IH (S i) a sl Hrec) as (-> & Hlen & Hrep & Hk & Hbefore).
    simpl. repeat split.
    + lia.
    + by rewrite <- Hrep.
    + by replace (i + S (length sl))%nat with (S i + length sl)%nat by lia.
    + intros [|j] Hj; [by rewrite Nat.add_0_r|].
      replace (i + S j)%nat with (S i + j)%nat by lia. apply Hbefore. lia.
Qed.

(** X17.  With a delay [time.sleep] takes, [wait_for_memcached] returns the
    client at the first healthy probe among the first [attempts], having
    slept once after each probe before it; when the very first probe is
    healthy it returns without a sleep, whatever the delay. *)
Theorem wait_returns_at_first_healthy server addr (attempts : Z) delay
    (k : nat) :
  (k < Z.to_nat attempts)%nat ->
  k = 0%nat \/ sleep_ok delay = true ->
  Preload.healthy (server k) = true ->
  (forall j, (j < k)%nat -> Preload.healthy (server j) = false) ->
  Preload.wait_for_memcached sleep_ok server addr attempts delay
  = (Preload.Client addr, replicate k delay).
Proof.
  intros Hlt Hsl Hk Hbefore. unfold Preload.wait_for_memcached.
  by apply wait_loop_ready.
Qed.

(** X18.  With a delay [time.sleep] takes, when none of the first
    [attempts] probes is healthy, [wait_for_memcached] raises its
    [RuntimeError] for the address after sleeping [attempts] times, the
    last sleep included; with [attempts] zero or negative it raises at
    once, without a probe or a sleep, whatever the delay.  With a delay
    [time.sleep] refuses and a first probe that is not healthy, the
    exception of [time.sleep] ends the wait at the first sleep. *)
Theorem wait_gives_up server addr (attempts : Z) delay :
  (forall j, (j < Z.to_nat attempts)%nat -> Preload.healthy (server j) = false) ->
  (attempts <= 0 \/ sleep_ok delay = true ->
   Preload.wait_for_memcached sleep_ok server addr attempts delay
   = (Preload.RuntimeError ("Memcached not ready at " +:+ addr),
      replicate (Z.to_nat attempts) delay))
  /\ (0 < attempts -> sleep_ok delay = false ->
      Preload.wait_for_memcached sleep_ok server addr attempts delay
      = (Preload.SleepRaises, [])).
Proof.
  intros Hall. unfold Preload.wait_for_memcached. split.
  - intros Hsl. apply wait_loop_gives_up; [|done].
    destruct Hsl as [Hle|Hsl]; [left; lia|by right].
  - intros Hpos Hsl.
    destruct (Z.to_nat attempts) as [|n] eqn:Hn; [lia|]. simpl.
    rewrite (Hall 0%nat) by lia. by rewrite Hsl.
Qed.

(** X19.  [wait_for_memcached] hands out a client only after a probe that
    set and read back "ok": if it returns, with [k] sleeps behind it, then
    probe [k] was healthy, [k] is below [attempts], and no earlier probe
    was healthy. *)
Theorem wait_client_was_healthy server addr (attempts : Z) delay
    (a : string) (sleeps : list D) :
  Preload.wait_for_memcached sleep_ok server addr attempts delay
    = (Preload.Client a, sleeps) ->
  a = addr
  /\ (Z.of_nat (length sleeps) < attempts)%Z
  /\ Preload.healthy (server (length sleeps)) = true
  /\ forall j, (j < length sleeps)%nat -> Preload.healthy (server j) = false.
Proof.
  unfold Preload.wait_for_memcached. intros Hrun.
  destruct (wait_loop_client_inv server addr delay _ _ _ _ Hrun)
    as (-> & Hlen & _ & Hk & Hbefore).
  repeat split; [lia|exact Hk|exact Hbefore].
Qed.

End WaitFacts.

Lemma wait_returns_at_first_healthy_witness :
  ((2 < Z.to_nat Preload.default_attempts)%nat
   /\ (2%nat = 0%nat \/ Preload.whole_seconds_ok 1 = true)
   /\ Preload.healthy (Preload.slow_server 2) = true
   /\ forall j, (j < 2)%nat -> Preload.healthy (Preload.slow_server j) = false)
  /\ Preload.wait_for_memcached Preload.whole_seconds_ok Preload.slow_server
       "memcached:11211" Preload.default_attempts 1
     = (Preload.Client "memcached:11211", [1; 1]).
Proof.
  assert ((2 < Z.to_nat Preload.default_attempts)%nat) as H1
    by (vm_compute; lia).
  assert (2%nat = 0%nat \/ Preload.whole_seconds_ok 1 = true) as Hs
    by (right; reflexivity).
  assert (Preload.healthy (Preload.slow_server 2) = true) as H2 by reflexivity.
  assert (forall j, (j < 2)%nat ->
            Preload.healthy (Preload.slow_server j) = false) as H3.
  { intros [|[|j]] Hj; [reflexivity|reflexivity|lia]. }
  split; [by repeat split|].
  exact (@wait_returns_at_first_healthy Z Preload.whole_seconds_ok
           Preload.slow_server "memcached:11211" Preload.default_attempts 1 2
           H1 Hs H2 H3).
Defined.

Lemma wait_gives_up_witness :
  ((forall j, (j < Z.to_nat 3)%nat -> Preload.healthy (Preload.dead_server j) = false)
   /\ (3 <= 0 \/ Preload.whole_seconds_ok 1 = true))
  /\ Preload.wait_for_memcached Preload.whole_seconds_ok Preload.dead_server
       "memcached:11211" 3 1
     = (Preload.RuntimeError "Memcached not ready at memcached:11211", [1; 1; 1]).
Proof.
  assert (forall j, (j < Z.to_nat 3)%nat ->
            Preload.healthy (Preload.dead_server j) = false) as Hall
    by (intros j _; reflexivity).
  assert (3 <= 0 \/ Preload.whole_seconds_ok 1 = true) as Hs
    by (right; reflexivity).
  split; [by split|].
  exact (proj1 (@wait_gives_up Z Preload.whole_seconds_ok Preload.dead_server
                  "memcached:11211" 3 1 Hall) Hs).
Defined.

Lemma wait_client_was_healthy_witness :
  Preload.wait_for_memcached Preload.whole_seconds_ok Preload.slow_server
    "memcached:11211" Preload.default_attempts 1
    = (Preload.Client "memcached:11211", [1; 1])
  /\ Preload.healthy (Preload.slow_server 2) = true.
Proof.
  assert (Preload.wait_for_memcached Preload.whole_seconds_ok
            Preload.slow_server "memcached:11211" Preload.default_attempts 1
          = (Preload.Client "memcached:11211", [1; 1])) as Hrun
    by reflexivity.
  split; [exact Hrun|].
  exact (proj1 (proj2 (proj2 (@wait_client_was_healthy Z
           Preload.whole_seconds_ok Preload.slow_server
           "memcached:11211" Preload.default_attempts 1 _ _ Hrun)))).
Defined.

(** A negative delay ends the wait at the first sleep. *)
Example negative_delay_ends_the_wait :
  Preload.wait_for_memcached Preload.whole_seconds_ok Preload.slow_server
    "memcached:11211" Preload.default_attempts (-1)
  = (Preload.SleepRaises, []).
Proof. reflexivity. Qed.
